(** * bb_blankboard: admin-side scripts, embedded and verified

    The repository's client code consists of three scripts:

    - [src/static/js/category_manage.js]: the category / topic / group
      management page (inline edit, save, cancel, delete, cascading
      list loads, create forms);
    - [src/unnamed/part_000]: the category -> topic -> group select
      boxes of the post create / edit forms, filtered from arrays the
      host page preloads;
    - [src/unnamed/part_001]: the public / private status toggle of a
      post row, with its optimistic update.

    Each script is embedded as executable definitions over an explicit
    page state.  A handler takes the page, the answers of the outside
    world it awaits (the outcome of [fetch], the user's answer to
    [confirm]) and returns the page it leaves behind together with the
    trace of what it did to the outside world ([alert], [fetch],
    [location.reload], [console.error]) and whether it ran to its end
    or threw.  Handlers are run one at a time: an [await] is modelled
    by handing the awaited outcome to the handler, so no other handler
    runs between the request and its answer. *)

From stdpp Require Import base list strings pretty.
From Stdlib Require Import ZArith QArith.

Import (notations) Stdlib.Strings.Ascii.

Local Open Scope Z_scope.

(** ** JavaScript values and primitives used by the scripts *)

Module JS.

(** Results of [parseInt] and [Number] on the strings the pages hold:
    an integer or [NaN].  Identifiers are integers (data model), far
    below 2^53, so every integer met here is an exact double. *)
Inductive jsnum : Type :=
| NaN
| Num (z : Z).

(** [a === b] on numbers: [NaN] differs from everything, itself
    included. *)
Definition strict_eq (a b : jsnum) : bool :=
  match a, b with
  | Num x, Num y => Z.eqb x y
  | _, _ => false
  end.

(** [String(n)] for an integer [n]. *)
Definition String_of (z : Z) : string := pretty z.
Arguments String_of : simpl never.

(** Strings are kept as their UTF-8 bytes.  [code a] is the value of
    a byte. *)
Definition code (a : Ascii.ascii) : Z := Z.of_N (Ascii.N_of_ascii a).

(** The white space of ECMAScript (WhiteSpace and LineTerminator) that
    takes two or three bytes: U+00A0; U+1680, U+2000 to U+200A, U+2028,
    U+2029, U+202F, U+205F, U+3000 and U+FEFF.  The one-byte part (TAB,
    LF, VT, FF, CR, SP) is [Ascii.is_space]. *)
Definition is_space2 (a b : Ascii.ascii) : bool :=
  (code a =? 194) && (code b =? 160).

Definition is_space3 (a b c : Ascii.ascii) : bool :=
  (code a =? 225) && (code b =? 154) && (code c =? 128)
  || (code a =? 226) && (code b =? 128)
     && ((128 <=? code c) && (code c <=? 138)
         || (code c =? 168) || (code c =? 169) || (code c =? 175))
  || (code a =? 226) && (code b =? 129) && (code c =? 159)
  || (code a =? 227) && (code b =? 128) && (code c =? 128)
  || (code a =? 239) && (code b =? 187) && (code c =? 191).

(** Leading white space removed, as [trim] and [parseInt] do. *)
Fixpoint trim_start (s : string) : string :=
  match s with
  | EmptyString => EmptyString
  | String a r =>
      if Ascii.is_space a then trim_start r
      else
        match r with
        | String b r1 =>
            if is_space2 a b then trim_start r1
            else
              match r1 with
              | String c r2 => if is_space3 a b c then trim_start r2 else s
              | EmptyString => s
              end
        | EmptyString => s
        end
  end.

(** The string is white space only. *)
Definition blank (s : string) : bool :=
  match trim_start s with
  | EmptyString => true
  | String _ _ => false
  end.

(** Trailing white space removed. *)
Fixpoint trim_end (s : string) : string :=
  match s with
  | EmptyString => EmptyString
  | String a r => if blank s then EmptyString else String a (trim_end r)
  end.

(** [s.trim()]. *)
Definition trim (s : string) : string := trim_end (trim_start s).
Arguments trim : simpl never.

(** Value of a character as a digit of the given radix ([0-9], [a-z],
    [A-Z]). *)
Definition digit_val (radix : Z) (a : Ascii.ascii) : option Z :=
  let n := code a in
  let d :=
    if (48 <=? n) && (n <=? 57) then Some (n - 48)
    else if (97 <=? n) && (n <=? 122) then Some (n - 87)
    else if (65 <=? n) && (n <=? 90) then Some (n - 55)
    else None in
  match d with
  | Some v => if v <? radix then Some v else None
  | None => None
  end.

(** The longest prefix of digits, read in the radix; [acc] is [None]
    until a first digit has been seen. *)
Fixpoint parse_digits (radix : Z) (s : string) (acc : option Z) : option Z :=
  match s with
  | String a r =>
      match digit_val radix a with
      | Some d => parse_digits radix r (Some (radix * default 0 acc + d))
      | None => acc
      end
  | EmptyString => acc
  end.

(** [parseInt(s)] without a radix argument: skip white space, read a
    sign, switch to radix 16 after a [0x] / [0X] prefix, read the
    longest digit prefix; [NaN] when there is no digit. *)
Definition parseInt (s : string) : jsnum :=
  let s1 := trim_start s in
  let '(neg, s2) :=
    match s1 with
    | String "-"%char r => (true, r)
    | String "+"%char r => (false, r)
    | _ => (false, s1)
    end in
  let '(radix, s3) :=
    match s2 with
    | String "0"%char (String "x"%char r) => (16, r)
    | String "0"%char (String "X"%char r) => (16, r)
    | _ => (10, s2)
    end in
  match parse_digits radix s3 None with
  | Some n => Num (if neg then - n else n)
  | None => NaN
  end.

(** Values a script meets in a parsed response body, plus [undefined]
    for a property that is not there.  Numbers are the rationals their
    JSON literals denote. *)
#[warnings="-register-all"]
Inductive jsval : Type :=
| JUndefined
| JNull
| JBool (b : bool)
| JNum (q : Q)
| JStr (s : string)
| JArr (items : list jsval)
| JObj (fields : list (string * jsval)).

(** ToBoolean. *)
Definition truthy (v : jsval) : bool :=
  match v with
  | JUndefined | JNull => false
  | JBool b => b
  | JNum q => negb (Qeq_bool q 0)
  | JStr s => negb (bool_decide (s = ""))
  | JArr _ | JObj _ => true
  end.

(** [a || b]. *)
Definition js_or (a b : jsval) : jsval := if truthy a then a else b.

(** [v === "ok"]-style comparison with a string literal. *)
Definition is_string (lit : string) (v : jsval) : bool :=
  match v with
  | JStr s => bool_decide (s = lit)
  | _ => false
  end.

(** Members of a parsed object: when a key occurs twice in the JSON
    text, [JSON.parse] keeps the later one. *)
Fixpoint lookup_field (k : string) (fields : list (string * jsval)) : jsval :=
  match fields with
  | [] => JUndefined
  | (k', v) :: rest =>
      match lookup_field k rest with
      | JUndefined => if bool_decide (k' = k) then v else JUndefined
      | later => later
      end
  end.

(** [v.k] for the keys the scripts read ([status], [message],
    [detail]): [None] stands for the TypeError raised on [null] and
    [undefined]; booleans, numbers, strings and arrays have no such
    property. *)
Definition get_prop (v : jsval) (k : string) : option jsval :=
  match v with
  | JUndefined | JNull => None
  | JObj fields => Some (lookup_field k fields)
  | _ => Some JUndefined
  end.

(** Exceptions: those the engine raises and [new Error(v)], whose
    message is [String(v)]. *)
Inductive EngineExn : Type :=
| TypeError     (* a property read on null, a call of a non-function *)
| SyntaxError   (* the body is not JSON text *)
| FetchFailed.  (* fetch rejected: no response at all *)

Inductive Exn : Type :=
| Engine (e : EngineExn)
| ErrorWith (v : jsval).

(** What an [alert] box displays: [String(v)] for [alert(v)], or the
    engine's own wording of one of its exceptions. *)
Inductive Shown : Type :=
| Text (v : jsval)
| EngineMessage (e : EngineExn).

(** [err.message]. *)
Definition message_of (e : Exn) : Shown :=
  match e with
  | Engine x => EngineMessage x
  | ErrorWith v => Text v
  end.

(** A request as handed to [fetch]. *)
Inductive Body : Type :=
| NoBody                                     (* GET *)
| FormData (fields : list (string * string)) (* POST, form fields *)
| JsonBody (v : jsval).                      (* POST, JSON.stringify(v) *)

Record Request : Type := mkRequest {
  url : string;
  body : Body
}.

(** What comes back: [res.ok], and the body read as JSON ([None] when
    [res.text()] / [JSON.parse] / [res.json()] throws). *)
Record Response : Type := mkResponse {
  res_ok : bool;
  res_body : option jsval
}.

Inductive FetchOutcome : Type :=
| Rejected
| Responded (r : Response).

(** What a handler does to the outside world. *)
Inductive Event : Type :=
| EvFetch (req : Request)
| EvAlert (m : Shown)
| EvConfirm (prompt : string)
| EvConsoleError (label : string)
| EvReload.

(** *** Handlers as state transformers with a trace

    Every trace entry carries the page as it stood when the effect
    happened: what the user was looking at when the request left or
    when the alert box opened. *)

Inductive Result (A : Type) : Type :=
| Done (a : A)
| Threw (e : Exn).
Arguments Done {A} a.
Arguments Threw {A} e.

Record Run (S A : Type) : Type := mkRun {
  final : S;
  trace : list (Event * S);
  result : Result A
}.
Arguments mkRun {S A} final trace result.
Arguments final {S A} r.
Arguments trace {S A} r.
Arguments result {S A} r.

Definition Act (S A : Type) : Type := S -> Run S A.

Definition ret {S A : Type} (a : A) : Act S A :=
  fun s => mkRun s [] (Done a).

Definition bind {S A B : Type} (m : Act S A) (k : A -> Act S B) : Act S B :=
  fun s =>
    match m s with
    | mkRun s1 t1 (Done a) =>
        match k a s1 with
        | mkRun s2 t2 r2 => mkRun s2 (t1 ++ t2) r2
        end
    | mkRun s1 t1 (Threw e) => mkRun s1 t1 (Threw e)
    end.

Definition throw {S A : Type} (e : Exn) : Act S A :=
  fun s => mkRun s [] (Threw e).

(** [try { m } catch (err) { h err }]. *)
Definition try_catch {S A : Type} (m : Act S A) (h : Exn -> Act S A) : Act S A :=
  fun s =>
    match m s with
    | mkRun s1 t1 (Done a) => mkRun s1 t1 (Done a)
    | mkRun s1 t1 (Threw e) =>
        match h e s1 with
        | mkRun s2 t2 r2 => mkRun s2 (t1 ++ t2) r2
        end
    end.

(** A call of an async function that is not awaited: it runs, and an
    exception it raises stays inside its own promise. *)
Definition detached {S : Type} (m : Act S unit) : Act S unit :=
  try_catch m (fun _ => ret tt).

Definition get_state {S : Type} : Act S S :=
  fun s => mkRun s [] (Done s).

Definition modify {S : Type} (f : S -> S) : Act S unit :=
  fun s => mkRun (f s) [] (Done tt).

Definition emit {S : Type} (ev : Event) : Act S unit :=
  fun s => mkRun s [(ev, s)] (Done tt).

(** The events of a trace, without the page snapshots. *)
Definition events {S : Type} (tr : list (Event * S)) : list Event := map fst tr.

Declare Scope act_scope.
Delimit Scope act_scope with act.
Notation "x <- m ;; k" := (bind m (fun x => k))
  (at level 100, m at next level, right associativity) : act_scope.
Notation "m ;;; k" := (bind m (fun _ => k))
  (at level 100, right associativity) : act_scope.

(** [alert(v)]. *)
Definition alert {S : Type} (m : Shown) : Act S unit := emit (EvAlert m).

(** [await fetch(req)], answered by [out]. *)
Definition fetch {S : Type} (req : Request) (out : FetchOutcome) : Act S Response :=
  bind (emit (EvFetch req))
       (fun _ => match out with
                 | Rejected => throw (Engine FetchFailed)
                 | Responded r => ret r
                 end).

(** [await res.json()], or [JSON.parse(await res.text())]. *)
Definition read_json {S : Type} (res : Response) : Act S jsval :=
  match res_body res with
  | Some v => ret v
  | None => throw (Engine SyntaxError)
  end.

(** [v.k], raising on [null]. *)
Definition prop {S : Type} (v : jsval) (k : string) : Act S jsval :=
  match get_prop v k with
  | Some x => ret x
  | None => throw (Engine TypeError)
  end.

End JS.

(** ** Select boxes of the create / edit forms ([src/unnamed/part_000]) *)

Module Filter.
Import JS.

(** Entries of [window.topics] and [window.groups]: the host page
    injects them with integer ids (data model), so that [===] against
    the number [parseInt] returns is a comparison of integers. *)
Record TopicRec : Type := mkTopic {
  topic_id : Z;
  topic_name : string;
  category_id : Z
}.

Record GroupRec : Type := mkGroup {
  group_id : Z;
  group_name : string;
  topic_id_of : Z
}.

(** An [<option>] element: its [value] and its [textContent]. *)
Record OptionEl : Type := mkOption {
  opt_value : string;
  opt_text : string
}.

(** A [<select>] element.  [dropdown] tells a single-selection
    drop-down box (no [multiple], display size 1) from a list box: a
    drop-down always has an option selected as soon as it has one.
    [selected] is the index of the selected option, if any. *)
Record SelectEl : Type := mkSelect {
  dropdown : bool;
  options : list OptionEl;
  selected : option nat
}.

(** [sel.value]: the value of the selected option, the empty string
    when none is selected. *)
Definition select_value (sel : SelectEl) : string :=
  match selected sel with
  | Some i =>
      match options sel !! i with
      | Some o => opt_value o
      | None => ""
      end
  | None => ""
  end.

(** [sel.innerHTML = ""]. *)
Definition clear_options (sel : SelectEl) : SelectEl :=
  {| dropdown := dropdown sel; options := []; selected := None |}.

(** [sel.appendChild(opt)] for a fresh option (not marked selected):
    a drop-down with nothing selected selects its first option. *)
Definition appendChild (sel : SelectEl) (o : OptionEl) : SelectEl :=
  {| dropdown := dropdown sel;
     options := options sel ++ [o];
     selected :=
       match selected sel with
       | Some i => Some i
       | None => if dropdown sel then Some 0%nat else None
       end |}.

(** The page as the script sees it: the preloaded arrays and the three
    select boxes, each of which [getElementById] may fail to find. *)
Record FormPage : Type := mkFormPage {
  topics : list TopicRec;
  groups : list GroupRec;
  categorySelect : option SelectEl;
  topicSelect : option SelectEl;
  groupSelect : option SelectEl
}.

(** [topics.filter(t => t.category_id === selectedCategory)]. *)
Definition topicsFor (selectedCategory : jsnum) (allTopics : list TopicRec)
  : list TopicRec :=
  List.filter (fun t => strict_eq (Num (category_id t)) selectedCategory) allTopics.

(** [groups.filter(g => g.topic_id === selectedTopic)]. *)
Definition groupsFor (selectedTopic : jsnum) (allGroups : list GroupRec)
  : list GroupRec :=
  List.filter (fun g => strict_eq (Num (topic_id_of g)) selectedTopic) allGroups.

Definition topic_option (t : TopicRec) : OptionEl :=
  {| opt_value := String_of (topic_id t); opt_text := topic_name t |}.

Definition group_option (g : GroupRec) : OptionEl :=
  {| opt_value := String_of (group_id g); opt_text := group_name g |}.

(** The [forEach] loops that append one option per filtered entry. *)
Definition append_all {A : Type} (mk : A -> OptionEl) (l : list A) (sel : SelectEl)
  : SelectEl :=
  fold_left (fun s x => appendChild s (mk x)) l sel.

Definition set_topicSelect (sel : SelectEl) (p : FormPage) : FormPage :=
  {| topics := topics p; groups := groups p;
     categorySelect := categorySelect p;
     topicSelect := Some sel;
     groupSelect := groupSelect p |}.

Definition set_groupSelect (sel : SelectEl) (p : FormPage) : FormPage :=
  {| topics := topics p; groups := groups p;
     categorySelect := categorySelect p;
     topicSelect := topicSelect p;
     groupSelect := Some sel |}.

(** [updateGroups()]. *)
Definition updateGroups (p : FormPage) : FormPage :=
  match topicSelect p, groupSelect p with
  | Some ts, Some gs =>
      let selectedTopic := parseInt (select_value ts) in
      let filteredGroups := groupsFor selectedTopic (groups p) in
      set_groupSelect (append_all group_option filteredGroups (clear_options gs)) p
  | _, _ => p
  end.

(** [updateTopics()]. *)
Definition updateTopics (p : FormPage) : FormPage :=
  match categorySelect p, topicSelect p with
  | Some cs, Some ts =>
      let selectedCategory := parseInt (select_value cs) in
      let filteredTopics := topicsFor selectedCategory (topics p) in
      updateGroups
        (set_topicSelect (append_all topic_option filteredTopics (clear_options ts)) p)
  | _, _ => p
  end.

(** *** Mode radios and page load *)

(** A radio button of a mode group ([category_mode], [topic_mode],
    [group_mode]): its [value] and whether it is checked. *)
Record Radio : Type := mkRadio {
  radio_value : string;
  radio_checked : bool
}.

(** One level of the form as the mode radios see it: the radios of the
    group, and the [style.display] of the level's select box and of
    its text input ([None] when [getElementById] does not find the
    element).  The options of the select box live in [FormPage]. *)
Record Level : Type := mkLevel {
  radios : list Radio;
  select_display : option string;
  input_display : option string
}.

(** The body shared by the change listener of [setupRadioToggle] and
    by [applyInitialRadioState], for the radio [r]. *)
Definition apply_mode (r : Radio) (lv : Level) : Level :=
  let isNew := bool_decide (radio_value r = "new") in
  {| radios := radios lv;
     select_display :=
       match select_display lv with
       | Some _ => Some (if isNew then "none" else "block")
       | None => None
       end;
     input_display :=
       match input_display lv with
       | Some _ => Some (if isNew then "block" else "none")
       | None => None
       end |}.

(** What the browser does when the user picks the radio at index [i]:
    that radio is checked, the others of the group are not. *)
Definition check_radio (i : nat) (rs : list Radio) : list Radio :=
  imap (fun j r => {| radio_value := radio_value r;
                      radio_checked := bool_decide (j = i) |}) rs.

(** The change listener [setupRadioToggle] registers on each radio,
    run for the radio at index [i] after the browser has checked it. *)
Definition radio_changed (i : nat) (lv : Level) : Level :=
  match radios lv !! i with
  | Some r =>
      apply_mode r {| radios := check_radio i (radios lv);
                      select_display := select_display lv;
                      input_display := input_display lv |}
  | None => lv
  end.

(** [applyInitialRadioState(radioNodeList, selectEl, inputEl)]. *)
Definition applyInitialRadioState (lv : Level) : Level :=
  fold_left (fun l r => if radio_checked r then apply_mode r l else l)
            (radios lv) lv.

(** The whole form: the select boxes with the preloaded arrays, and
    the three mode levels. *)
Record FormUI : Type := mkFormUI {
  form : FormPage;
  category_mode : Level;
  topic_mode : Level;
  group_mode : Level
}.

(** [initializeCategoryUI()], up to the registration of the
    listeners. *)
Definition initializeCategoryUI (u : FormUI) : FormUI :=
  let p1 :=
    match categorySelect (form u) with
    | Some _ => updateTopics (form u)
    | None => form u
    end in
  let p2 :=
    match topicSelect p1 with
    | Some _ => updateGroups p1
    | None => p1
    end in
  {| form := p2;
     category_mode := applyInitialRadioState (category_mode u);
     topic_mode := applyInitialRadioState (topic_mode u);
     group_mode := applyInitialRadioState (group_mode u) |}.

(** The user picks the option at index [i] of the category box, and
    the change listener [updateTopics] runs. *)
Definition category_changed (i : nat) (p : FormPage) : FormPage :=
  updateTopics
    {| topics := topics p; groups := groups p;
       categorySelect :=
         match categorySelect p with
         | Some cs => Some {| dropdown := dropdown cs; options := options cs;
                              selected := Some i |}
         | None => None
         end;
       topicSelect := topicSelect p;
       groupSelect := groupSelect p |}.

(** The user picks the option at index [i] of the topic box, and the
    change listener [updateGroups] runs. *)
Definition topic_changed (i : nat) (p : FormPage) : FormPage :=
  updateGroups
    {| topics := topics p; groups := groups p;
       categorySelect := categorySelect p;
       topicSelect :=
         match topicSelect p with
         | Some ts => Some {| dropdown := dropdown ts; options := options ts;
                              selected := Some i |}
         | None => None
         end;
       groupSelect := groupSelect p |}.

End Filter.

(** ** Status toggle of a post row ([src/unnamed/part_001]) *)

Module Toggle.
Import JS.
Local Open Scope act_scope.

Definition STATUS_PUBLIC : Z := 0.
Definition STATUS_PRIVATE : Z := 1.

(** A [.status-btn]: its [data-status] attribute and whether its class
    list holds [is-active]. *)
Record StatusBtn : Type := mkBtn {
  data_status : string;
  is_active : bool
}.

(** A [.status-toggle] element.  [current] is [dataset.current] as the
    script reads it: every read goes through [Number(...)] and every
    write stores a number, so the attribute is kept as that number. *)
Record ToggleEl : Type := mkToggle {
  postId : string;
  current : jsnum;
  buttons : list StatusBtn
}.

(** [btn.dataset.status === "public" ? STATUS_PUBLIC : STATUS_PRIVATE]. *)
Definition btn_status (btn : StatusBtn) : Z :=
  if bool_decide (data_status btn = "public") then STATUS_PUBLIC else STATUS_PRIVATE.

(** [applyActiveState(toggleEl, current)]. *)
Definition applyActiveState (toggleEl : ToggleEl) (cur : jsnum) : ToggleEl :=
  let currentStatus := cur in
  {| postId := postId toggleEl;
     current := currentStatus;
     buttons :=
       map (fun btn =>
              {| data_status := data_status btn;
                 is_active := strict_eq (Num (btn_status btn)) currentStatus |})
           (buttons toggleEl) |}.

(** [updateStatus(postId, statusStr)]. *)
Definition updateStatus {S : Type} (post : string) (statusStr : string)
    (out : FetchOutcome) : Act S unit :=
  res <- fetch {| url := "/admin/api/posts/" +:+ post +:+ "/status";
                  body := JsonBody (JObj [("status", JStr statusStr)]) |} out ;;
  if res_ok res then ret tt
  else
    data <- read_json res ;;
    msg <- prop data "message" ;;
    throw (ErrorWith (js_or msg (JStr "更新に失敗しました"))).

(** The click handler of one [.status-btn] of the toggle ([btn] is the
    button clicked, [out] answers the request).  The handler first
    calls [preventDefault] and [stopPropagation] on the event, which
    touch neither the toggle nor the network. *)
Definition click (btn : StatusBtn) (out : FetchOutcome) : Act ToggleEl unit :=
  toggleEl <- get_state ;;
  let post := postId toggleEl in
  let nextStatus := btn_status btn in
  if strict_eq (current toggleEl) (Num nextStatus) then ret tt
  else
    let prev := current toggleEl in
    modify (fun t => applyActiveState t (Num nextStatus)) ;;;
    try_catch
      (updateStatus post
         (if nextStatus =? STATUS_PUBLIC then "public" else "private") out)
      (fun err =>
         modify (fun t => applyActiveState t prev) ;;;
         alert (message_of err)).

(** The [DOMContentLoaded] pass over one toggle. *)
Definition init (toggleEl : ToggleEl) : ToggleEl :=
  applyActiveState toggleEl (current toggleEl).

(** The [DOMContentLoaded] pass over all the toggles of the page. *)
Definition init_all (toggles : list ToggleEl) : list ToggleEl :=
  map init toggles.

End Toggle.

(** ** Category management page ([src/static/js/category_manage.js]) *)

Module Manage.
Import JS.
Local Open Scope act_scope.

(** The three columns of the page.  The script repeats the same row
    handlers for each, with its own selectors, endpoints and wording. *)
Inductive Kind : Type :=
| Category
| Topic
| Group.

(** One row of a column: the elements that share a [data-id].  The
    attribute holds the entity's integer id, and the ids of a column
    are distinct, so a button and the elements its handler looks up by
    [data-id] belong to one row.  [*_hidden] tells whether the
    element's class list holds [hidden]. *)
Record Row : Type := mkRow {
  rid : Z;
  name_text : string;      (* textContent of the name span *)
  name_hidden : bool;
  edit_value : string;     (* value of the edit input *)
  edit_hidden : bool;
  save_hidden : bool;
  cancel_hidden : bool;
  editbtn_hidden : bool;
  delete_hidden : bool
}.

(** The module-level variables and the parts of the document the
    script touches. *)
Record Page : Type := mkPage {
  currentCategoryId : option Z;       (* null or a number *)
  currentCategoryName : string;
  currentTopicId : option Z;
  currentTopicName : string;
  category_rows : list Row;           (* rows rendered by the host page *)
  topic_list : list Row;              (* #topic-list *)
  group_list : list Row;              (* #group-list *)
  current_category_label : string;    (* #current-category *)
  current_topic_label : string;       (* #current-topic *)
  topic_create_hidden : bool;         (* #topic-create-area *)
  group_create_hidden : bool;         (* #group-create-area *)
  new_category : string;              (* value of #new-category *)
  new_topic : string;                 (* value of #new-topic *)
  new_group : string                  (* value of #new-group *)
}.

Definition rows_of (k : Kind) (p : Page) : list Row :=
  match k with
  | Category => category_rows p
  | Topic => topic_list p
  | Group => group_list p
  end.

Definition with_rows (k : Kind) (rows : list Row) (p : Page) : Page :=
  {| currentCategoryId := currentCategoryId p;
     currentCategoryName := currentCategoryName p;
     currentTopicId := currentTopicId p;
     currentTopicName := currentTopicName p;
     category_rows := match k with Category => rows | _ => category_rows p end;
     topic_list := match k with Topic => rows | _ => topic_list p end;
     group_list := match k with Group => rows | _ => group_list p end;
     current_category_label := current_category_label p;
     current_topic_label := current_topic_label p;
     topic_create_hidden := topic_create_hidden p;
     group_create_hidden := group_create_hidden p;
     new_category := new_category p;
     new_topic := new_topic p;
     new_group := new_group p |}.

(** [document.querySelector(`.x[data-id="${id}"]`)]: the first row of
    the column with that id. *)
Fixpoint find_row (id : Z) (rows : list Row) : option Row :=
  match rows with
  | [] => None
  | r :: rest => if rid r =? id then Some r else find_row id rest
  end.

(** Writing through the elements [querySelector] returned. *)
Fixpoint update_row (id : Z) (f : Row -> Row) (rows : list Row) : list Row :=
  match rows with
  | [] => []
  | r :: rest => if rid r =? id then f r :: rest else r :: update_row id f rest
  end.

(** The elements of row [id], or the TypeError of using [null]. *)
Definition query (k : Kind) (id : Z) : Act Page Row :=
  p <- get_state ;;
  match find_row id (rows_of k p) with
  | Some r => ret r
  | None => throw (Engine TypeError)
  end.

Definition modify_row (k : Kind) (id : Z) (f : Row -> Row) : Act Page unit :=
  modify (fun p => with_rows k (update_row id f (rows_of k p)) p).

(** The six [classList] calls of an edit click, after the input has
    been filled. *)
Definition begin_edit (r : Row) : Row :=
  {| rid := rid r;
     name_text := name_text r;
     name_hidden := true;
     edit_value := trim (name_text r);
     edit_hidden := false;
     save_hidden := false;
     cancel_hidden := false;
     editbtn_hidden := true;
     delete_hidden := true |}.

(** The six [classList] calls of [resetCategoryRow] / [resetTopicRow] /
    [resetGroupRow]. *)
Definition reset_row (r : Row) : Row :=
  {| rid := rid r;
     name_text := name_text r;
     name_hidden := false;
     edit_value := edit_value r;
     edit_hidden := true;
     save_hidden := true;
     cancel_hidden := true;
     editbtn_hidden := false;
     delete_hidden := false |}.

Definition set_name (name : string) (r : Row) : Row :=
  {| rid := rid r;
     name_text := name;
     name_hidden := name_hidden r;
     edit_value := edit_value r;
     edit_hidden := edit_hidden r;
     save_hidden := save_hidden r;
     cancel_hidden := cancel_hidden r;
     editbtn_hidden := editbtn_hidden r;
     delete_hidden := delete_hidden r |}.

(** The user types into the edit input of a row. *)
Definition set_edit_value (s : string) (r : Row) : Row :=
  {| rid := rid r;
     name_text := name_text r;
     name_hidden := name_hidden r;
     edit_value := s;
     edit_hidden := edit_hidden r;
     save_hidden := save_hidden r;
     cancel_hidden := cancel_hidden r;
     editbtn_hidden := editbtn_hidden r;
     delete_hidden := delete_hidden r |}.

(** Click on [.edit-btn] / [.topic-edit-btn] / [.group-edit-btn]. *)
Definition edit_click (k : Kind) (id : Z) : Act Page unit :=
  _ <- query k id ;;
  modify_row k id begin_edit.

(** [resetCategoryRow(id)], [resetTopicRow(id)], [resetGroupRow(id)]. *)
Definition resetRow (k : Kind) (id : Z) : Act Page unit :=
  _ <- query k id ;;
  modify_row k id reset_row.

Definition resetCategoryRow : Z -> Act Page unit := resetRow Category.
Definition resetTopicRow : Z -> Act Page unit := resetRow Topic.
Definition resetGroupRow : Z -> Act Page unit := resetRow Group.


(** *** Wording and endpoints of each column *)

Definition id_field (k : Kind) : string :=
  match k with
  | Category => "category_id"
  | Topic => "topic_id"
  | Group => "group_id"
  end.

Definition update_url (k : Kind) : string :=
  match k with
  | Category => "/admin/api/category_update"
  | Topic => "/admin/api/topic_update"
  | Group => "/admin/api/group_update"
  end.

Definition delete_url (k : Kind) : string :=
  match k with
  | Category => "/admin/api/category_delete"
  | Topic => "/admin/api/topic_delete"
  | Group => "/admin/api/group_delete"
  end.

Definition name_required (k : Kind) : string :=
  match k with
  | Category => "カテゴリ名を入力してください"
  | Topic => "トピック名を入力してください"
  | Group => "グループ名を入力してください"
  end.

Definition update_failed (k : Kind) : string :=
  match k with
  | Category => "カテゴリを更新できませんでした。"
  | Topic => "トピックを更新できませんでした。"
  | Group => "グループを更新できませんでした。"
  end.

Definition delete_failed (k : Kind) : string :=
  match k with
  | Category => "カテゴリを削除できませんでした。"
  | Topic => "トピックを削除できませんでした。"
  | Group => "グループを削除できませんでした。"
  end.

Definition update_parse_label (k : Kind) : string :=
  match k with
  | Category => "カテゴリ更新レスポンス解析エラー:"
  | Topic => "トピック更新レスポンス解析エラー:"
  | Group => "グループ更新レスポンス解析エラー:"
  end.

Definition delete_parse_label (k : Kind) : string :=
  match k with
  | Category => "カテゴリ削除レスポンス解析エラー:"
  | Topic => "トピック削除レスポンス解析エラー:"
  | Group => "グループ削除レスポンス解析エラー:"
  end.

Definition delete_prompt (k : Kind) : string :=
  match k with
  | Category => "このカテゴリと配下のトピック／グループを削除します。よろしいですか？"
  | Topic => "このトピックと配下グループを削除します。よろしいですか？"
  | Group => "このグループを削除します。よろしいですか？"
  end.

Definition category_label (name : string) : string := "選択中カテゴリ：" +:+ name.
Definition topic_label (name : string) : string := "選択中トピック：" +:+ name.

(** *** Assignments to the module variables and to the document *)

Definition set_category (id : option Z) (name : string) (p : Page) : Page :=
  {| currentCategoryId := id;
     currentCategoryName := name;
     currentTopicId := currentTopicId p;
     currentTopicName := currentTopicName p;
     category_rows := category_rows p;
     topic_list := topic_list p;
     group_list := group_list p;
     current_category_label := current_category_label p;
     current_topic_label := current_topic_label p;
     topic_create_hidden := topic_create_hidden p;
     group_create_hidden := group_create_hidden p;
     new_category := new_category p;
     new_topic := new_topic p;
     new_group := new_group p |}.

Definition set_topic (id : option Z) (name : string) (p : Page) : Page :=
  {| currentCategoryId := currentCategoryId p;
     currentCategoryName := currentCategoryName p;
     currentTopicId := id;
     currentTopicName := name;
     category_rows := category_rows p;
     topic_list := topic_list p;
     group_list := group_list p;
     current_category_label := current_category_label p;
     current_topic_label := current_topic_label p;
     topic_create_hidden := topic_create_hidden p;
     group_create_hidden := group_create_hidden p;
     new_category := new_category p;
     new_topic := new_topic p;
     new_group := new_group p |}.

Definition set_labels (cat top : string) (p : Page) : Page :=
  {| currentCategoryId := currentCategoryId p;
     currentCategoryName := currentCategoryName p;
     currentTopicId := currentTopicId p;
     currentTopicName := currentTopicName p;
     category_rows := category_rows p;
     topic_list := topic_list p;
     group_list := group_list p;
     current_category_label := cat;
     current_topic_label := top;
     topic_create_hidden := topic_create_hidden p;
     group_create_hidden := group_create_hidden p;
     new_category := new_category p;
     new_topic := new_topic p;
     new_group := new_group p |}.

Definition set_category_label (s : string) (p : Page) : Page :=
  set_labels s (current_topic_label p) p.

Definition set_topic_label (s : string) (p : Page) : Page :=
  set_labels (current_category_label p) s p.

Definition set_create_areas (topic_hidden group_hidden : bool) (p : Page) : Page :=
  {| currentCategoryId := currentCategoryId p;
     currentCategoryName := currentCategoryName p;
     currentTopicId := currentTopicId p;
     currentTopicName := currentTopicName p;
     category_rows := category_rows p;
     topic_list := topic_list p;
     group_list := group_list p;
     current_category_label := current_category_label p;
     current_topic_label := current_topic_label p;
     topic_create_hidden := topic_hidden;
     group_create_hidden := group_hidden;
     new_category := new_category p;
     new_topic := new_topic p;
     new_group := new_group p |}.

Definition set_inputs (cat top grp : string) (p : Page) : Page :=
  {| currentCategoryId := currentCategoryId p;
     currentCategoryName := currentCategoryName p;
     currentTopicId := currentTopicId p;
     currentTopicName := currentTopicName p;
     category_rows := category_rows p;
     topic_list := topic_list p;
     group_list := group_list p;
     current_category_label := current_category_label p;
     current_topic_label := current_topic_label p;
     topic_create_hidden := topic_create_hidden p;
     group_create_hidden := group_create_hidden p;
     new_category := cat;
     new_topic := top;
     new_group := grp |}.

(** *** Cascading list loads *)

(** An element of the array a list endpoint returns: [{id, name}]. *)
Record Entity : Type := mkEntity {
  ent_id : Z;
  ent_name : string
}.

(** What [await fetch(...)] followed by [await res.json()] yields for a
    list endpoint: no response, a body that is not JSON, a JSON value
    that is not an array, or the array. *)
Inductive ListOutcome : Type :=
| ListRejected
| ListNotJson
| ListNotArray
| ListItems (items : list Entity).

Definition newline : string := String (Ascii.ascii_of_nat 10) "".

(** *** Names inside the row templates

    [loadTopics] and [loadGroups] write each name twice into a
    template literal and assign the result to [li.innerHTML]: once as
    the content of the name span, once between the double quotes of
    the input's [value] attribute.  What a row shows afterwards is
    what the browser's HTML parser makes of those characters: a
    character reference is decoded, a double quote ends the attribute,
    a less-than sign opens a tag.  The parser is not written out
    again here.  It is a parameter of the rendering, and only its
    behaviour on names without such characters is fixed. *)

(** The characters that do not reach the row as they are: NUL, line
    feed and carriage return (a text input drops line breaks from its
    value), the double quote, the ampersand and the less-than sign. *)
Definition html_special (a : Ascii.ascii) : bool :=
  let c := code a in
  (c =? 0) || (c =? 10) || (c =? 13) || (c =? 34) || (c =? 38) || (c =? 60).

Fixpoint markup_free (s : string) : bool :=
  match s with
  | EmptyString => true
  | String a rest => negb (html_special a) && markup_free rest
  end.

(** The span of the templates, from the end of its start tag to its
    end tag, for a name that is written there as it is. *)
Definition span_source (name : string) : string :=
  newline +:+ "          " +:+ name +:+ newline +:+ "        ".

(** [span_text name] is the [textContent] of the row's name span and
    [input_value name] the [value] of its edit input, once the
    template that holds [name] has been parsed. *)
Class HtmlParser : Type := {
  span_text : string -> string;
  input_value : string -> string;
  span_text_markup_free :
    forall name, markup_free name = true -> span_text name = span_source name;
  input_value_markup_free :
    forall name, markup_free name = true -> input_value name = name
}.

Section Rendering.
Context {parser : HtmlParser}.

(** The [<li>] built from the template literal: the name span and the
    edit input read what the parser gives them, and only the edit and
    delete buttons are visible. *)
Definition render_row (e : Entity) : Row :=
  {| rid := ent_id e;
     name_text := span_text (ent_name e);
     name_hidden := false;
     edit_value := input_value (ent_name e);
     edit_hidden := true;
     save_hidden := true;
     cancel_hidden := true;
     editbtn_hidden := false;
     delete_hidden := false |}.

(** The request for a list, up to the array: [None] is a JSON value
    that is not an array, on which [forEach] will fail. *)
Definition fetch_list (req : Request) (out : ListOutcome)
  : Act Page (option (list Entity)) :=
  emit (EvFetch req) ;;;
  match out with
  | ListRejected => throw (Engine FetchFailed)
  | ListNotJson => throw (Engine SyntaxError)
  | ListNotArray => ret None
  | ListItems items => ret (Some items)
  end.

(** [loadTopics(categoryId, categoryName)]. *)
Definition loadTopics (categoryId : Z) (categoryName : string) (out : ListOutcome)
  : Act Page unit :=
  modify (set_category (Some categoryId) categoryName) ;;;
  modify (set_topic None "") ;;;
  modify (set_category_label (category_label categoryName)) ;;;
  modify (fun p => set_create_areas false (group_create_hidden p) p) ;;;
  topics <- fetch_list
              {| url := "/admin/api/topics?category_id=" +:+ String_of categoryId;
                 body := NoBody |} out ;;
  modify (with_rows Topic []) ;;;
  modify (with_rows Group []) ;;;
  modify (set_topic_label "トピックを選択してください") ;;;
  modify (fun p => set_create_areas (topic_create_hidden p) true p) ;;;
  match topics with
  | Some items => modify (with_rows Topic (map render_row items))
  | None => throw (Engine TypeError)
  end.

(** [loadGroups(topicId, topicName)]. *)
Definition loadGroups (topicId : Z) (topicName : string) (out : ListOutcome)
  : Act Page unit :=
  modify (set_topic (Some topicId) topicName) ;;;
  modify (set_topic_label (topic_label topicName)) ;;;
  modify (fun p => set_create_areas (topic_create_hidden p) false p) ;;;
  groups <- fetch_list
              {| url := "/admin/api/groups?topic_id=" +:+ String_of topicId;
                 body := NoBody |} out ;;
  modify (with_rows Group []) ;;;
  match groups with
  | Some items => modify (with_rows Group (map render_row items))
  | None => throw (Engine TypeError)
  end.

(** *** Update and delete *)

(** [!res.ok || data.status !== "ok"]. *)
Definition api_failed (res : Response) (data : jsval) : Act Page bool :=
  if negb (res_ok res) then ret true
  else
    st <- prop data "status" ;;
    ret (negb (is_string "ok" st)).

(** [data.message || data.detail || fallback]. *)
Definition failure_message (data : jsval) (fallback : string) : Act Page jsval :=
  m <- prop data "message" ;;
  if truthy m then ret m
  else
    d <- prop data "detail" ;;
    ret (js_or d (JStr fallback)).

(** Click on [.save-btn] / [.topic-save-btn] / [.group-save-btn] of row
    [id]; [out] answers the update request. *)
Definition save_click (k : Kind) (id : Z) (out : FetchOutcome) : Act Page unit :=
  input <- query k id ;;
  let name := trim (edit_value input) in
  if bool_decide (name = "") then alert (Text (JStr (name_required k)))
  else
    res <- fetch {| url := update_url k;
                    body := FormData [(id_field k, String_of id); ("name", name)] |}
                 out ;;
    parsed <- try_catch
                (data <- read_json res ;; ret (Some data))
                (fun _ =>
                   emit (EvConsoleError (update_parse_label k)) ;;;
                   alert (Text (JStr (update_failed k))) ;;;
                   ret None) ;;
    match parsed with
    | None => ret tt
    | Some data =>
        failed <- api_failed res data ;;
        if failed then
          msg <- failure_message data (update_failed k) ;;
          alert (Text msg)
        else
          _ <- query k id ;;
          modify_row k id (set_name name) ;;;
          resetRow k id ;;;
          p <- get_state ;;
          match k with
          | Category =>
              if bool_decide (currentCategoryId p = Some id) then
                modify (set_category (currentCategoryId p) name) ;;;
                modify (set_category_label (category_label name))
              else ret tt
          | Topic =>
              if bool_decide (currentTopicId p = Some id) then
                modify (set_topic (currentTopicId p) name) ;;;
                modify (set_topic_label (topic_label name))
              else ret tt
          | Group => ret tt
          end
    end.

(** Click on the delete button of row [id]; [answer] is what the user
    tells [confirm], [out] answers the delete request and [again] the
    list request that follows a topic or group deletion. *)
Definition delete_click (k : Kind) (id : Z) (answer : bool)
    (out : FetchOutcome) (again : ListOutcome) : Act Page unit :=
  emit (EvConfirm (delete_prompt k)) ;;;
  if negb answer then ret tt
  else
    parsed <- try_catch
                (res <- fetch {| url := delete_url k;
                                 body := FormData [(id_field k, String_of id)] |}
                              out ;;
                 data <- read_json res ;;
                 ret (Some (res, data)))
                (fun _ =>
                   emit (EvConsoleError (delete_parse_label k)) ;;;
                   alert (Text (JStr (delete_failed k))) ;;;
                   ret None) ;;
    match parsed with
    | None => ret tt
    | Some (res, data) =>
        failed <- api_failed res data ;;
        if failed then
          msg <- failure_message data (delete_failed k) ;;
          alert (Text msg)
        else
          p <- get_state ;;
          match k with
          | Category => emit EvReload
          | Topic =>
              match currentCategoryId p with
              | Some c => detached (loadTopics c (currentCategoryName p) again)
              | None => ret tt
              end
          | Group =>
              match currentTopicId p with
              | Some t => detached (loadGroups t (currentTopicName p) again)
              | None => ret tt
              end
          end
    end.

(** *** Create forms *)

(** [handleCreateCategory()]. *)
Definition handleCreateCategory (out : FetchOutcome) : Act Page unit :=
  p <- get_state ;;
  let name := trim (new_category p) in
  if bool_decide (name = "") then alert (Text (JStr "カテゴリ名は必須です"))
  else
    _ <- fetch {| url := "/admin/api/category_create";
                  body := FormData [("category_name", name);
                                    ("topic_name", "");
                                    ("group_name", "")] |} out ;;
    emit EvReload.

(** [handleCreateTopic()]. *)
Definition handleCreateTopic (out : FetchOutcome) (again : ListOutcome)
  : Act Page unit :=
  p <- get_state ;;
  match currentCategoryId p with
  | None => alert (Text (JStr "先にカテゴリを選択してください"))
  | Some c =>
      let name := trim (new_topic p) in
      if bool_decide (name = "") then alert (Text (JStr "トピック名を入力してください"))
      else
        res <- fetch {| url := "/admin/api/topic_create";
                        body := FormData [("category_id", String_of c);
                                          ("name", name)] |} out ;;
        json <- read_json res ;;
        st <- prop json "status" ;;
        if is_string "ok" st then
          modify (fun q => set_inputs (new_category q) "" (new_group q) q) ;;;
          detached (loadTopics c (currentCategoryName p) again)
        else
          msg <- prop json "message" ;;
          alert (Text (js_or msg (JStr "トピックを追加できませんでした。")))
  end.

(** [handleCreateGroup()]. *)
Definition handleCreateGroup (out : FetchOutcome) (again : ListOutcome)
  : Act Page unit :=
  p <- get_state ;;
  match currentTopicId p with
  | None => alert (Text (JStr "先にトピックを選択してください"))
  | Some t =>
      let name := trim (new_group p) in
      if bool_decide (name = "") then alert (Text (JStr "グループ名を入力してください"))
      else
        res <- fetch {| url := "/admin/api/group_create";
                        body := FormData [("topic_id", String_of t);
                                          ("name", name)] |} out ;;
        json <- read_json res ;;
        st <- prop json "status" ;;
        if is_string "ok" st then
          modify (fun q => set_inputs (new_category q) (new_topic q) "" q) ;;;
          detached (loadGroups t (currentTopicName p) again)
        else
          msg <- prop json "message" ;;
          alert (Text (js_or msg (JStr "グループを追加できませんでした。")))
  end.

(** *** Clicks on a name *)



End Rendering.

End Manage.

(** * Specification vocabulary and sample pages *)

(** [out] is exactly the part of [inp] that satisfies [P], in the order
    of [inp]: a sub-sequence of [inp] (order kept, nothing added), made
    of the elements of [inp] that satisfy [P], and containing every
    sub-sequence of [inp] whose elements all satisfy [P] (nothing
    dropped, repetitions included). *)
Definition exactly_those {A : Type} (P : A -> Prop) (inp out : list A) : Prop :=
  out `sublist_of` inp /\
  (forall x, x ∈ out <-> x ∈ inp /\ P x) /\
  (forall k, k `sublist_of` inp -> Forall P k -> k `sublist_of` out).

(** A create form with three categories; category 1 is selected and
    the group box still shows an option of an earlier selection. *)
Definition sample_form : Filter.FormPage :=
  {| Filter.topics :=
       [Filter.mkTopic 10 "T1" 1; Filter.mkTopic 11 "T2" 2; Filter.mkTopic 12 "T3" 1];
     Filter.groups :=
       [Filter.mkGroup 100 "G1" 10; Filter.mkGroup 101 "G2" 12;
        Filter.mkGroup 102 "G3" 10];
     Filter.categorySelect :=
       Some (Filter.mkSelect true
               [Filter.mkOption "1" "A"; Filter.mkOption "2" "B"; Filter.mkOption "3" "C"]
               (Some 0%nat));
     Filter.topicSelect := Some (Filter.mkSelect true [] None);
     Filter.groupSelect :=
       Some (Filter.mkSelect true [Filter.mkOption "999" "stale"] (Some 0%nat)) |}.

(** The same form after the user has picked category 3, which has no
    topic. *)
Definition sample_form_empty_category : Filter.FormPage :=
  {| Filter.topics := Filter.topics sample_form;
     Filter.groups := Filter.groups sample_form;
     Filter.categorySelect :=
       Some (Filter.mkSelect true
               [Filter.mkOption "1" "A"; Filter.mkOption "2" "B"; Filter.mkOption "3" "C"]
               (Some 2%nat));
     Filter.topicSelect :=
       Some (Filter.mkSelect true
               [Filter.mkOption "10" "T1"; Filter.mkOption "12" "T3"] (Some 0%nat));
     Filter.groupSelect :=
       Some (Filter.mkSelect true
               [Filter.mkOption "100" "G1"; Filter.mkOption "102" "G3"] (Some 0%nat)) |}.

(** A page that has the category box and a group box the host page
    filled, but no topic box. *)
Definition form_without_topic_box : Filter.FormPage :=
  {| Filter.topics := Filter.topics sample_form;
     Filter.groups := Filter.groups sample_form;
     Filter.categorySelect :=
       Some (Filter.mkSelect true
               [Filter.mkOption "1" "A"; Filter.mkOption "2" "B"; Filter.mkOption "3" "C"]
               (Some 2%nat));
     Filter.topicSelect := None;
     Filter.groupSelect :=
       Some (Filter.mkSelect true
               [Filter.mkOption "100" "G1"; Filter.mkOption "102" "G3"] (Some 0%nat)) |}.


(** The toggle of post 5, public, as the page-load pass leaves it. *)
Definition sample_toggle : Toggle.ToggleEl :=
  {| Toggle.postId := "5";
     Toggle.current := JS.Num 0;
     Toggle.buttons := [Toggle.mkBtn "public" true; Toggle.mkBtn "private" false] |}.

(** The same toggle showing private. *)
Definition sample_toggle_private : Toggle.ToggleEl :=
  {| Toggle.postId := "5";
     Toggle.current := JS.Num 1;
     Toggle.buttons := [Toggle.mkBtn "public" false; Toggle.mkBtn "private" true] |}.

(** The request that asks to make post 5 private. *)
Definition make_private_request : JS.Request :=
  {| JS.url := "/admin/api/posts/5/status";
     JS.body := JS.JsonBody (JS.JObj [("status", JS.JStr "private")]) |}.

(** A toggle is consistent when its buttons show its stored state:
    what [applyActiveState] establishes, at page load and after every
    click. *)
Definition consistent (t : Toggle.ToggleEl) : Prop :=
  Toggle.applyActiveState t (Toggle.current t) = t.

(** The string sent for a target state. *)
Definition status_word (next : Z) : string :=
  if next =? Toggle.STATUS_PUBLIC then "public" else "private".

Definition status_request (t : Toggle.ToggleEl) (next : Z) : JS.Request :=
  {| JS.url := "/admin/api/posts/" +:+ Toggle.postId t +:+ "/status";
     JS.body := JS.JsonBody (JS.JObj [("status", JS.JStr (status_word next))]) |}.

(** What the alert box shows after a failed request. *)
Definition failure_shown (out : JS.FetchOutcome) : JS.Shown :=
  match out with
  | JS.Rejected => JS.EngineMessage JS.FetchFailed
  | JS.Responded r =>
      match JS.res_body r with
      | None => JS.EngineMessage JS.SyntaxError
      | Some data =>
          match JS.get_prop data "message" with
          | None => JS.EngineMessage JS.TypeError
          | Some m => JS.Text (JS.js_or m (JS.JStr "更新に失敗しました"))
          end
      end
  end.

Definition request_failed (out : JS.FetchOutcome) : bool :=
  match out with
  | JS.Rejected => true
  | JS.Responded r => negb (JS.res_ok r)
  end.


(** The two view states of a row (section 4.1): which of its six
    elements carry the class [hidden]. *)
Definition viewing (r : Manage.Row) : Prop :=
  Manage.name_hidden r = false /\
  Manage.editbtn_hidden r = false /\
  Manage.delete_hidden r = false /\
  Manage.edit_hidden r = true /\
  Manage.save_hidden r = true /\
  Manage.cancel_hidden r = true.

Definition editing (r : Manage.Row) : Prop :=
  Manage.name_hidden r = true /\
  Manage.editbtn_hidden r = true /\
  Manage.delete_hidden r = true /\
  Manage.edit_hidden r = false /\
  Manage.save_hidden r = false /\
  Manage.cancel_hidden r = false.

(** The user types [s] into the edit input of row [id]. *)
Definition type_into (k : Manage.Kind) (id : Z) (s : string) (p : Manage.Page)
  : Manage.Page :=
  Manage.with_rows k
    (Manage.update_row id (Manage.set_edit_value s) (Manage.rows_of k p)) p.

(** A row in viewing state, as the host page renders it. *)
Definition plain_row (id : Z) (name : string) : Manage.Row :=
  {| Manage.rid := id;
     Manage.name_text := name;
     Manage.name_hidden := false;
     Manage.edit_value := name;
     Manage.edit_hidden := true;
     Manage.save_hidden := true;
     Manage.cancel_hidden := true;
     Manage.editbtn_hidden := false;
     Manage.delete_hidden := false |}.

(** The parser of the sample pages, whose names hold no markup: every
    name reaches the row as it is written. *)
Definition sample_parser : Manage.HtmlParser :=
  {| Manage.span_text := Manage.span_source;
     Manage.input_value := fun name => name;
     Manage.span_text_markup_free := fun _ _ => eq_refl;
     Manage.input_value_markup_free := fun _ _ => eq_refl |}.

(** The management page with category 1 and its topic 10 selected. *)
Definition sample_page : Manage.Page :=
  {| Manage.currentCategoryId := Some 1;
     Manage.currentCategoryName := "A";
     Manage.currentTopicId := Some 10;
     Manage.currentTopicName := "T1";
     Manage.category_rows := [plain_row 1 "A"; plain_row 2 "B"];
     Manage.topic_list := [Manage.render_row (parser := sample_parser) (Manage.mkEntity 10 "T1")];
     Manage.group_list := [Manage.render_row (parser := sample_parser) (Manage.mkEntity 100 "G1")];
     Manage.current_category_label := Manage.category_label "A";
     Manage.current_topic_label := Manage.topic_label "T1";
     Manage.topic_create_hidden := false;
     Manage.group_create_hidden := false;
     Manage.new_category := "";
     Manage.new_topic := "";
     Manage.new_group := "" |}.

(** The update request of a save click. *)
Definition update_request (k : Manage.Kind) (id : Z) (name : string) : JS.Request :=
  {| JS.url := Manage.update_url k;
     JS.body := JS.FormData [(Manage.id_field k, JS.String_of id); ("name", name)] |}.

(** The delete request of a confirmed delete click. *)
Definition delete_request (k : Manage.Kind) (id : Z) : JS.Request :=
  {| JS.url := Manage.delete_url k;
     JS.body := JS.FormData [(Manage.id_field k, JS.String_of id)] |}.

(** A response that counts as success: HTTP success and a payload
    whose [status] is the string "ok". *)
Definition success_response (resp : JS.Response) : Prop :=
  JS.res_ok resp = true /\
  exists data,
    JS.res_body resp = Some data /\
    JS.get_prop data "status" = Some (JS.JStr "ok").

(** The response [{status: "ok"}] with HTTP 200. *)
Definition ok_response : JS.Response :=
  JS.mkResponse true (Some (JS.JObj [("status", JS.JStr "ok")])).

(** [sample_page] with the row of category 1 open for editing and
    " A2 " typed into its field. *)
Definition sample_page_editing : Manage.Page :=
  type_into Manage.Category 1 " A2 "
    (JS.final (Manage.edit_click Manage.Category 1 sample_page)).

(** [sample_page] with the row of topic 10 open for editing and
    " T9 " typed into its field. *)
Definition sample_page_editing_topic : Manage.Page :=
  type_into Manage.Topic 10 " T9 "
    (JS.final (Manage.edit_click Manage.Topic 10 sample_page)).

(** A response that counts as failure for an update or a delete: the
    body is not JSON, or the HTTP status is not a success, or the
    payload's [status] is not the string "ok". *)
Definition response_failed (resp : JS.Response) : bool :=
  match JS.res_body resp with
  | None => true
  | Some data =>
      negb (JS.res_ok resp) ||
      negb (match JS.get_prop data "status" with
            | Some st => JS.is_string "ok" st
            | None => false
            end)
  end.

(** The payload is a value whose properties can be read: anything
    [JSON.parse] yields except [null]. *)
Definition payload_readable (resp : JS.Response) : Prop :=
  match JS.res_body resp with
  | Some JS.JNull | Some JS.JUndefined => False
  | _ => True
  end.

Definition field_or_undefined (data : JS.jsval) (k : string) : JS.jsval :=
  default JS.JUndefined (JS.get_prop data k).

(** The text of the failure box: the payload's [message] when it is
    truthy, else its [detail] when that is truthy, else the fallback;
    the fallback when there is no payload at all. *)
Definition failure_text (fallback : string) (resp : JS.Response) : JS.Shown :=
  match JS.res_body resp with
  | None => JS.Text (JS.JStr fallback)
  | Some data =>
      JS.Text (JS.js_or (field_or_undefined data "message")
                 (JS.js_or (field_or_undefined data "detail") (JS.JStr fallback)))
  end.

(** HTTP 500 with the JSON text [null] as body. *)
Definition null_error_response : JS.Response :=
  JS.mkResponse false (Some JS.JNull).

(** [sample_page] with nothing selected yet and a name typed into the
    new-category field. *)
Definition sample_page_new_category : Manage.Page :=
  Manage.set_inputs "  News " "" "" sample_page.

(** [sample_page] with a name typed into the new-topic field. *)
Definition sample_page_new_topic : Manage.Page :=
  Manage.set_inputs "" "T2" "" sample_page.

(** [sample_page] with a name typed into the new-group field. *)
Definition sample_page_new_group : Manage.Page :=
  Manage.set_inputs "" "" "G2" sample_page.

(** HTTP 422 with [{detail: "name already exists"}], the shape the
    update and delete handlers read their text from. *)
Definition detail_error_response : JS.Response :=
  JS.mkResponse false (Some (JS.JObj [("detail", JS.JStr "name already exists")])).

(** HTTP 500 whose body nevertheless says [{status: "ok"}]. *)
Definition ok_body_error_response : JS.Response :=
  JS.mkResponse false (Some (JS.JObj [("status", JS.JStr "ok")])).

(** The list request answered with a JSON body: an array or not. *)
Definition list_answered (out : Manage.ListOutcome) : Prop :=
  match out with
  | Manage.ListNotArray | Manage.ListItems _ => True
  | Manage.ListRejected | Manage.ListNotJson => False
  end.

(** The creation request for a category name. *)
Definition create_category_request (name : string) : JS.Request :=
  {| JS.url := "/admin/api/category_create";
     JS.body := JS.FormData [("category_name", name);
                             ("topic_name", "");
                             ("group_name", "")] |}.

(** Decimal digits, for the strings [String(n)] yields. *)
Definition is_digit (a : Ascii.ascii) : bool :=
  (48 <=? JS.code a) && (JS.code a <=? 57).

Fixpoint all_digits (s : string) : bool :=
  match s with
  | EmptyString => true
  | String a r => is_digit a && all_digits r
  end.

(** The radio that decides the initial display of a level: the last
    checked one, if any. *)
Definition last_checked (rs : list Filter.Radio) : option Filter.Radio :=
  last (List.filter Filter.radio_checked rs).

(** A level of the form with both controls on the page, "existing"
    checked. *)
Definition sample_level : Filter.Level :=
  {| Filter.radios := [Filter.mkRadio "existing" true; Filter.mkRadio "new" false];
     Filter.select_display := Some "";
     Filter.input_display := Some "" |}.

(** [sample_form] with its three mode levels. *)
Definition sample_ui : Filter.FormUI :=
  {| Filter.form := sample_form;
     Filter.category_mode := sample_level;
     Filter.topic_mode := sample_level;
     Filter.group_mode := sample_level |}.

(** A control is shown or hidden by its [style.display]. *)
Definition shown (display : option string) : Prop := display = Some "block".
Definition hidden (display : option string) : Prop := display = Some "none".


(** The request for the topics of a category, and for the groups of a
    topic. *)
Definition topics_request (c : Z) : JS.Request :=
  {| JS.url := "/admin/api/topics?category_id=" +:+ JS.String_of c;
     JS.body := JS.NoBody |}.

Definition groups_request (t : Z) : JS.Request :=
  {| JS.url := "/admin/api/groups?topic_id=" +:+ JS.String_of t;
     JS.body := JS.NoBody |}.

(** The creation requests for a topic of category [c] and a group of
    topic [t]. *)
Definition create_topic_request (c : Z) (name : string) : JS.Request :=
  {| JS.url := "/admin/api/topic_create";
     JS.body := JS.FormData [("category_id", JS.String_of c); ("name", name)] |}.

Definition create_group_request (t : Z) (name : string) : JS.Request :=
  {| JS.url := "/admin/api/group_create";
     JS.body := JS.FormData [("topic_id", JS.String_of t); ("name", name)] |}.

(** A payload that says [status: "ok"], whatever the HTTP status. *)
Definition payload_ok (resp : JS.Response) : Prop :=
  exists data,
    JS.res_body resp = Some data /\
    JS.get_prop data "status" = Some (JS.JStr "ok").
(** * Properties *)

(** ** Traces and runs: general facts *)

Section ActFacts.
Import JS.
Context {S : Type}.

Lemma bind_done {A B : Type} (m : Act S A) (k : A -> Act S B) (s s1 : S)
    (t1 : list (Event * S)) (a : A) :
  m s = mkRun s1 t1 (Done a) ->
  bind m k s =
  mkRun (final (k a s1)) (t1 ++ trace (k a s1)) (result (k a s1)).
Proof. intros H. unfold bind. rewrite H. now destruct (k a s1). Qed.

Lemma bind_threw {A B : Type} (m : Act S A) (k : A -> Act S B) (s s1 : S)
    (t1 : list (Event * S)) (e : Exn) :
  m s = mkRun s1 t1 (Threw e) ->
  bind m k s = mkRun s1 t1 (Threw e).
Proof. intros H. unfold bind. now rewrite H. Qed.

Lemma detached_never_throws (m : Act S unit) (s : S) :
  result (detached m s) = Done tt.
Proof.
  unfold detached, try_catch.
  destruct (m s) as [s1 t1 [[]|e]]; reflexivity.
Qed.
End ActFacts.

(** ** The select boxes of the create / edit forms *)

Section FilterFacts.
Import JS Filter.

Lemma strict_eq_Num (a b : Z) : strict_eq (Num a) (Num b) = true <-> a = b.
Proof. simpl. apply Z.eqb_eq. Qed.

Lemma strict_eq_NaN_r (a : jsnum) : strict_eq a NaN = false.
Proof. now destruct a. Qed.

Lemma filter_is_sublist {A : Type} (f : A -> bool) (l : list A) :
  List.filter f l `sublist_of` l.
Proof.
  induction l as [|x l IH]; simpl.
  - constructor.
  - destruct (f x); now constructor.
Qed.

(** Nothing that passes the test is dropped: every sublist of the
    input made of passing elements sits inside the result. *)
Lemma filter_keeps_all {A : Type} (f : A -> bool) (l k : list A) :
  k `sublist_of` l -> Forall (fun x => f x = true) k ->
  k `sublist_of` List.filter f l.
Proof.
  intros Hsub. induction Hsub as [|x k l Hsub IH|x k l Hsub IH]; intros Hall; simpl.
  - constructor.
  - inversion Hall as [|? ? Hx Hk]; subst. rewrite Hx. constructor. now apply IH.
  - destruct (f x); [constructor|]; now apply IH.
Qed.

Lemma filter_elem_of {A : Type} (f : A -> bool) (l : list A) (x : A) :
  x ∈ List.filter f l <-> x ∈ l /\ f x = true.
Proof. rewrite !list_elem_of_In. apply filter_In. Qed.

Lemma filter_none {A : Type} (f : A -> bool) (l : list A) :
  (forall x, f x = false) -> List.filter f l = [].
Proof.
  intros H. induction l as [|x l IH]; simpl; [reflexivity|].
  now rewrite H.
Qed.

Lemma options_append_all {A : Type} (mk : A -> OptionEl) (l : list A) (sel : SelectEl) :
  options (append_all mk l sel) = options sel ++ map mk l.
Proof.
  unfold append_all. revert sel.
  induction l as [|x l IH]; intros sel; simpl.
  - now rewrite app_nil_r.
  - rewrite IH. simpl. now rewrite <- app_assoc.
Qed.

Lemma options_repopulated {A : Type} (mk : A -> OptionEl) (l : list A) (sel : SelectEl) :
  options (append_all mk l (clear_options sel)) = map mk l.
Proof. now rewrite options_append_all. Qed.

Lemma select_value_no_options (sel : SelectEl) :
  options sel = [] -> select_value sel = "".
Proof.
  intros H. unfold select_value. rewrite H.
  destruct (selected sel) as [i|]; [|reflexivity].
  now destruct i.
Qed.

Lemma parseInt_empty : parseInt "" = NaN.
Proof. reflexivity. Qed.

Lemma groupsFor_NaN (gs : list GroupRec) : groupsFor NaN gs = [].
Proof. apply filter_none. intros g. apply strict_eq_NaN_r. Qed.

Lemma topicsFor_NaN (ts : list TopicRec) : topicsFor NaN ts = [].
Proof. apply filter_none. intros t. apply strict_eq_NaN_r. Qed.

(** What [updateGroups] leaves in the group box. *)
Lemma updateGroups_options (p : FormPage) (ts gs : SelectEl) :
  topicSelect p = Some ts -> groupSelect p = Some gs ->
  exists gs',
    groupSelect (updateGroups p) = Some gs' /\
    options gs' = map group_option (groupsFor (parseInt (select_value ts)) (groups p)).
Proof.
  intros Ht Hg. unfold updateGroups. rewrite Ht, Hg. simpl.
  eexists. split; [reflexivity|]. apply options_repopulated.
Qed.

(** The guards: without its select boxes a handler leaves the page
    alone. *)
Lemma updateTopics_guard (p : FormPage) :
  categorySelect p = None \/ topicSelect p = None -> updateTopics p = p.
Proof.
  unfold updateTopics. intros [H|H]; rewrite H; [reflexivity|].
  now destruct (categorySelect p).
Qed.

Lemma updateGroups_guard (p : FormPage) :
  topicSelect p = None \/ groupSelect p = None -> updateGroups p = p.
Proof.
  unfold updateGroups. intros [H|H]; rewrite H; [reflexivity|].
  now destruct (topicSelect p).
Qed.

Lemma updateGroups_keeps_topics (p : FormPage) :
  topicSelect (updateGroups p) = topicSelect p /\
  categorySelect (updateGroups p) = categorySelect p /\
  topics (updateGroups p) = topics p /\
  groups (updateGroups p) = groups p.
Proof.
  unfold updateGroups.
  destruct (topicSelect p) eqn:Et, (groupSelect p) eqn:Eg; simpl;
    rewrite ?Et; repeat split; reflexivity.
Qed.
End FilterFacts.

Section FilterClaims.
Import JS Filter.

Lemma filter_exactly_those {A : Type} (f : A -> bool) (P : A -> Prop) (l : list A) :
  (forall x, f x = true <-> P x) ->
  exactly_those P l (List.filter f l).
Proof.
  intros Hf. repeat split.
  - apply filter_is_sublist.
  - apply filter_elem_of in H. tauto.
  - apply filter_elem_of in H. apply Hf. tauto.
  - intros [Hin HP]. apply filter_elem_of. split; [assumption|now apply Hf].
  - intros k Hsub Hall. apply filter_keeps_all; [assumption|].
    eapply Forall_impl; [exact Hall|]. intros x Hx. now apply Hf.
Qed.

Lemma updateTopics_options (p : FormPage) (cs ts : SelectEl) :
  categorySelect p = Some cs -> topicSelect p = Some ts ->
  exists ts',
    topicSelect (updateTopics p) = Some ts' /\
    options ts' = map topic_option (topicsFor (parseInt (select_value cs)) (topics p)) /\
    updateTopics p = updateGroups (set_topicSelect ts' p).
Proof.
  intros Hc Ht. unfold updateTopics. rewrite Hc, Ht.
  eexists. split; [|split; [apply options_repopulated|reflexivity]].
  now destruct (updateGroups_keeps_topics
                  (set_topicSelect
                     (append_all topic_option
                        (topicsFor (parseInt (select_value cs)) (topics p))
                        (clear_options ts)) p)) as [-> _].
Qed.
End FilterClaims.

(** C5.  The static hierarchy filter keeps exactly the matching
    entries, in input order: for every category id [c] and every list
    of topics, [topicsFor] returns the topics whose [category_id] is
    [c] and nothing else, none dropped, order preserved; [groupsFor]
    does the same with [topic_id].  The two handlers put one option
    per kept entry, in that order, into the topic box and the group
    box.  Both handlers are functions of the page they are given: they
    await nothing and send no request. *)
Theorem static_filter_exact :
  (forall (c : Z) (allTopics : list Filter.TopicRec),
      exactly_those (fun t => Filter.category_id t = c) allTopics
        (Filter.topicsFor (JS.Num c) allTopics)) /\
  (forall (t : Z) (allGroups : list Filter.GroupRec),
      exactly_those (fun g => Filter.topic_id_of g = t) allGroups
        (Filter.groupsFor (JS.Num t) allGroups)) /\
  (forall (p : Filter.FormPage) (cs ts : Filter.SelectEl) (c : Z),
      Filter.categorySelect p = Some cs ->
      Filter.topicSelect p = Some ts ->
      JS.parseInt (Filter.select_value cs) = JS.Num c ->
      exists ts',
        Filter.topicSelect (Filter.updateTopics p) = Some ts' /\
        Filter.options ts' =
          map Filter.topic_option (Filter.topicsFor (JS.Num c) (Filter.topics p))) /\
  (forall (p : Filter.FormPage) (ts gs : Filter.SelectEl) (t : Z),
      Filter.topicSelect p = Some ts ->
      Filter.groupSelect p = Some gs ->
      JS.parseInt (Filter.select_value ts) = JS.Num t ->
      exists gs',
        Filter.groupSelect (Filter.updateGroups p) = Some gs' /\
        Filter.options gs' =
          map Filter.group_option (Filter.groupsFor (JS.Num t) (Filter.groups p))).
Proof.
  split; [|split; [|split]].
  - intros c allTopics. apply filter_exactly_those.
    intros t. apply strict_eq_Num.
  - intros t allGroups. apply filter_exactly_those.
    intros g. apply strict_eq_Num.
  - intros p cs ts c Hc Ht Hv.
    destruct (updateTopics_options p cs ts Hc Ht) as (ts' & H1 & H2 & _).
    exists ts'. split; [assumption|]. now rewrite <- Hv.
  - intros p ts gs t Ht Hg Hv.
    destruct (updateGroups_options p ts gs Ht Hg) as (gs' & H1 & H2).
    exists gs'. split; [assumption|]. now rewrite <- Hv.
Qed.

(** C5 on [sample_form]: category 1 keeps topics 10 and 12, in that
    order. *)
Lemma static_filter_exact_sample :
  exists ts',
    Filter.topicSelect (Filter.updateTopics sample_form) = Some ts' /\
    Filter.options ts' = [Filter.mkOption "10" "T1"; Filter.mkOption "12" "T3"].
Proof.
  destruct static_filter_exact as (_ & _ & H & _).
  destruct (H sample_form _ _ 1 eq_refl eq_refl eq_refl) as (ts' & H1 & H2).
  exists ts'. split; [exact H1|]. rewrite H2. reflexivity.
Defined.

(** C10 as stated fails where the guard of [updateTopics] fires: on a
    page without the topic box the category-change handler returns at
    once, never reaches [updateGroups], and the group options of the
    earlier selection stay, although the category now selected (3) has
    no topic. *)
Lemma category_change_guarded :
  (exists cs,
      Filter.categorySelect form_without_topic_box = Some cs /\
      Filter.select_value cs = "3" /\
      Filter.topicsFor (JS.parseInt (Filter.select_value cs))
        (Filter.topics form_without_topic_box) = []) /\
  Filter.updateTopics form_without_topic_box = form_without_topic_box /\
  option_map Filter.options
    (Filter.groupSelect (Filter.updateTopics form_without_topic_box)) =
  Some [Filter.mkOption "100" "G1"; Filter.mkOption "102" "G3"].
Proof.
  split; [|split; reflexivity].
  eexists. split; [reflexivity|]. split; reflexivity.
Qed.

(** C10, amended.  On a page that has both the category box and the
    topic box, every run of the category-change handler repopulates the
    topic box and then runs the group-change handler on the result, so
    the group box (when there is one) holds exactly the groups of the
    topic the topic box now shows.  In particular, when the selected
    category has no topic, the topic box ends with no option, its value
    parses to NaN, and the group box ends with no option either. *)
Theorem category_change_refreshes_groups
    (p : Filter.FormPage) (cs ts : Filter.SelectEl) :
  Filter.categorySelect p = Some cs ->
  Filter.topicSelect p = Some ts ->
  exists ts',
    Filter.topicSelect (Filter.updateTopics p) = Some ts' /\
    Filter.options ts' =
      map Filter.topic_option
        (Filter.topicsFor (JS.parseInt (Filter.select_value cs)) (Filter.topics p)) /\
    Filter.updateTopics p = Filter.updateGroups (Filter.set_topicSelect ts' p) /\
    (forall gs, Filter.groupSelect p = Some gs ->
       exists gs',
         Filter.groupSelect (Filter.updateTopics p) = Some gs' /\
         Filter.options gs' =
           map Filter.group_option
             (Filter.groupsFor (JS.parseInt (Filter.select_value ts')) (Filter.groups p))) /\
    (Filter.topicsFor (JS.parseInt (Filter.select_value cs)) (Filter.topics p) = [] ->
       Filter.options ts' = [] /\
       JS.parseInt (Filter.select_value ts') = JS.NaN /\
       forall gs, Filter.groupSelect p = Some gs ->
         exists gs',
           Filter.groupSelect (Filter.updateTopics p) = Some gs' /\
           Filter.options gs' = []).
Proof.
  intros Hc Ht.
  destruct (updateTopics_options p cs ts Hc Ht) as (ts' & H1 & H2 & H3).
  assert (Hgs : forall gs, Filter.groupSelect p = Some gs ->
            exists gs',
              Filter.groupSelect (Filter.updateTopics p) = Some gs' /\
              Filter.options gs' =
                map Filter.group_option
                  (Filter.groupsFor (JS.parseInt (Filter.select_value ts'))
                     (Filter.groups p))).
  { intros gs Hg. rewrite H3.
    apply (updateGroups_options (Filter.set_topicSelect ts' p) ts' gs); [reflexivity|exact Hg]. }
  exists ts'. repeat split; try assumption.
  - rewrite H2, H. reflexivity.
  - rewrite (select_value_no_options ts'); [reflexivity|]. rewrite H2, H. reflexivity.
  - intros gs Hg. destruct (Hgs gs Hg) as (gs' & G1 & G2).
    exists gs'. split; [assumption|].
    rewrite G2, (select_value_no_options ts'); [|rewrite H2, H; reflexivity].
    rewrite parseInt_empty, groupsFor_NaN. reflexivity.
Qed.

(** C10 on [sample_form_empty_category]: after the change to category
    3 both boxes are empty. *)
Lemma category_change_refreshes_groups_sample :
  exists ts' gs',
    Filter.topicSelect (Filter.updateTopics sample_form_empty_category) = Some ts' /\
    Filter.options ts' = [] /\
    Filter.groupSelect (Filter.updateTopics sample_form_empty_category) = Some gs' /\
    Filter.options gs' = [].
Proof.
  destruct (category_change_refreshes_groups sample_form_empty_category _ _
              eq_refl eq_refl) as (ts' & H1 & _ & _ & _ & H5).
  destruct (H5 eq_refl) as (E1 & _ & E3).
  destruct (E3 _ eq_refl) as (gs' & G1 & G2).
  exists ts', gs'. repeat split; assumption.
Defined.


(** ** The status toggle *)

Section ToggleFacts.
Import JS Toggle.

Lemma applyActiveState_twice (t : ToggleEl) (a b : jsnum) :
  applyActiveState (applyActiveState t a) b = applyActiveState t b.
Proof.
  unfold applyActiveState. simpl. f_equal.
  rewrite map_map. reflexivity.
Qed.

Lemma init_consistent (t : ToggleEl) : consistent (init t).
Proof. unfold consistent, init. simpl. apply applyActiveState_twice. Qed.

Lemma applyActiveState_consistent (t : ToggleEl) (a : jsnum) :
  consistent (applyActiveState t a).
Proof. unfold consistent. simpl. apply applyActiveState_twice. Qed.

Lemma revert_restores (t : ToggleEl) (a : jsnum) :
  consistent t ->
  applyActiveState (applyActiveState t a) (current t) = t.
Proof. intros H. rewrite applyActiveState_twice. exact H. Qed.

(** A click on a button of another state than the current one: the
    request leaves while the page already shows the target state. *)
Lemma click_is_optimistic (t : ToggleEl) (btn : StatusBtn) (out : FetchOutcome) :
  strict_eq (current t) (Num (btn_status btn)) = false ->
  exists rest,
    trace (click btn out t) =
    (EvFetch (status_request t (btn_status btn)),
     applyActiveState t (Num (btn_status btn))) :: rest.
Proof.
  intros H. unfold click, bind, get_state. simpl. rewrite H. simpl.
  unfold try_catch, updateStatus, bind, fetch, emit. simpl.
  destruct out as [|r]; simpl; [eexists; reflexivity|].
  destruct (res_ok r); simpl; [eexists; reflexivity|].
  unfold read_json. destruct (res_body r) as [data|]; simpl; [|eexists; reflexivity].
  unfold prop. destruct (get_prop data "message"); simpl; eexists; reflexivity.
Qed.

(** The request succeeded: the target state stays, nothing is shown. *)
Lemma click_success (t : ToggleEl) (btn : StatusBtn) (r : Response) :
  strict_eq (current t) (Num (btn_status btn)) = false ->
  res_ok r = true ->
  click btn (Responded r) t =
  mkRun (applyActiveState t (Num (btn_status btn)))
        [(EvFetch (status_request t (btn_status btn)),
          applyActiveState t (Num (btn_status btn)))]
        (Done tt).
Proof.
  intros H Hok. unfold click, bind, get_state. simpl. rewrite H. simpl.
  unfold try_catch, updateStatus, bind, fetch, emit. simpl.
  rewrite Hok. reflexivity.
Qed.

(** The request failed: the page is back to the state before the
    click, and one alert box has been shown over the restored page. *)
Lemma click_failure_run (t : ToggleEl) (btn : StatusBtn) (out : FetchOutcome) :
  consistent t ->
  strict_eq (current t) (Num (btn_status btn)) = false ->
  request_failed out = true ->
  click btn out t =
  mkRun t
        [(EvFetch (status_request t (btn_status btn)),
          applyActiveState t (Num (btn_status btn)));
         (EvAlert (failure_shown out), t)]
        (Done tt).
Proof.
  intros Hc H Hf. unfold click, bind, get_state. simpl. rewrite H. simpl.
  unfold try_catch, updateStatus, bind, fetch, emit, modify, alert, emit. simpl.
  destruct out as [|r]; simpl in *.
  - rewrite (revert_restores t _ Hc). reflexivity.
  - apply negb_true_iff in Hf. rewrite Hf. simpl.
    unfold read_json. destruct (res_body r) as [data|]; simpl.
    + unfold prop. destruct (get_prop data "message"); simpl;
        rewrite (revert_restores t _ Hc); reflexivity.
    + rewrite (revert_restores t _ Hc). reflexivity.
Qed.
End ToggleFacts.

(** C4.  A click on the button whose state is already the toggle's
    current state does nothing: the handler sends no request, shows
    nothing, and leaves the toggle (stored state and active button) as
    it was. *)
Theorem click_current_state_is_noop
    (t : Toggle.ToggleEl) (btn : Toggle.StatusBtn) (out : JS.FetchOutcome) :
  Toggle.current t = JS.Num (Toggle.btn_status btn) ->
  Toggle.click btn out t = JS.mkRun t [] (JS.Done tt).
Proof.
  intros H. unfold Toggle.click, JS.bind, JS.get_state. simpl.
  rewrite H. simpl. rewrite Z.eqb_refl. reflexivity.
Qed.

(** C4 on the public toggle of post 5: clicking "public" again, even
    with a server that would answer with an error. *)
Lemma click_current_state_is_noop_sample :
  Toggle.click (Toggle.mkBtn "public" true)
    (JS.Responded (JS.mkResponse false None)) sample_toggle =
  JS.mkRun sample_toggle [] (JS.Done tt).
Proof. apply click_current_state_is_noop. reflexivity. Defined.

(** C3 at the failing input.  Post 5 is public; the user clicks
    "private"; the server answers 500 with a body that is not JSON.
    The private button is active while the request is out and the
    toggle is back to public afterwards, as the claim says; but the
    alert box shows the wording of the exception [res.json()] raised,
    neither a message of the server nor the script's own fallback. *)
Theorem click_failure_with_unreadable_body :
  Toggle.click (Toggle.mkBtn "private" false)
    (JS.Responded (JS.mkResponse false None)) sample_toggle =
  JS.mkRun sample_toggle
    [(JS.EvFetch make_private_request, sample_toggle_private);
     (JS.EvAlert (JS.EngineMessage JS.SyntaxError), sample_toggle)]
    (JS.Done tt).
Proof. reflexivity. Qed.


(** ** The management page: rows *)

Section RowFacts.
Import JS Manage.

Lemma rows_of_with_rows (k : Kind) (rows : list Row) (p : Page) :
  rows_of k (with_rows k rows p) = rows.
Proof. now destruct k. Qed.

Lemma with_rows_twice (k : Kind) (a b : list Row) (p : Page) :
  with_rows k a (with_rows k b p) = with_rows k a p.
Proof. now destruct k. Qed.

Lemma with_rows_same (k : Kind) (p : Page) :
  with_rows k (rows_of k p) p = p.
Proof. now destruct k, p. Qed.


Lemma find_row_update (id : Z) (f : Row -> Row) (rows : list Row) :
  (forall r, rid (f r) = rid r) ->
  find_row id (update_row id f rows) = option_map f (find_row id rows).
Proof.
  intros Hf. induction rows as [|x rows IH]; simpl; [reflexivity|].
  destruct (rid x =? id) eqn:E; simpl.
  - now rewrite Hf, E.
  - now rewrite E.
Qed.



Lemma query_found (k : Kind) (id : Z) (p : Page) (r : Row) :
  find_row id (rows_of k p) = Some r ->
  query k id p = mkRun p [] (Done r).
Proof. intros H. unfold query, bind, get_state. simpl. now rewrite H. Qed.


Lemma resetRow_found (k : Kind) (id : Z) (p : Page) (r : Row) :
  find_row id (rows_of k p) = Some r ->
  resetRow k id p =
  mkRun (with_rows k (update_row id reset_row (rows_of k p)) p) [] (Done tt).
Proof.
  intros H. unfold resetRow.
  rewrite (bind_done _ _ _ _ _ _ (query_found _ _ _ _ H)). reflexivity.
Qed.

Lemma reset_row_viewing (r : Row) : viewing (reset_row r).
Proof. repeat split. Qed.

Lemma begin_edit_editing (r : Row) : editing (begin_edit r).
Proof. repeat split. Qed.
End RowFacts.




(** ** The management page: save, delete, load and create *)

Ltac act_unfold :=
  unfold Manage.save_click, Manage.delete_click, Manage.handleCreateCategory,
    Manage.handleCreateTopic, Manage.handleCreateGroup,
    Manage.loadTopics, Manage.loadGroups, Manage.fetch_list,
    Manage.modify_row, Manage.api_failed, Manage.failure_message,
    JS.fetch, JS.read_json, JS.prop, JS.alert, JS.detached, JS.try_catch,
    JS.bind, JS.emit, JS.ret, JS.throw, JS.modify, JS.get_state.

Ltac act_red :=
  cbn [JS.final JS.trace JS.result app negb JS.is_string JS.res_ok JS.res_body].

Section SaveFacts.
Import JS Manage.

Lemma name_kept_by_reset (name : string) (r : Row) :
  rid (reset_row (set_name name r)) = rid r.
Proof. reflexivity. Qed.

(** A successful save, step by step: one request, then the name label
    is rewritten, the row reset, and the selection refreshed when the
    row is the selected category or topic. *)
Lemma save_click_success (k : Kind) (id : Z) (p : Page) (r : Row) (resp : Response) :
  find_row id (rows_of k p) = Some r ->
  trim (edit_value r) <> "" ->
  success_response resp ->
  let name := trim (edit_value r) in
  let p1 :=
    with_rows k
      (update_row id reset_row (update_row id (set_name name) (rows_of k p))) p in
  save_click k id (Responded resp) p =
  mkRun
    match k with
    | Category =>
        if bool_decide (currentCategoryId p = Some id)
        then set_category_label (category_label name)
               (set_category (currentCategoryId p) name p1)
        else p1
    | Topic =>
        if bool_decide (currentTopicId p = Some id)
        then set_topic_label (topic_label name)
               (set_topic (currentTopicId p) name p1)
        else p1
    | Group => p1
    end
    [(EvFetch (update_request k id name), p)]
    (Done tt).
Proof.
  intros Hfind Hname (Hok & data & Hbody & Hst). cbv zeta.
  assert (Hfind1 :
    find_row id
      (rows_of k
         (with_rows k (update_row id (set_name (trim (edit_value r))) (rows_of k p)) p)) =
    Some (set_name (trim (edit_value r)) r)).
  { rewrite rows_of_with_rows, find_row_update by reflexivity. now rewrite Hfind. }
  act_unfold. rewrite (query_found _ _ _ _ Hfind). act_red.
  rewrite bool_decide_eq_false_2 by assumption. act_red.
  rewrite Hbody. act_red. rewrite Hok. act_red. rewrite Hst. act_red.
  rewrite bool_decide_eq_true_2 by reflexivity. act_red.
  rewrite (query_found _ _ _ _ Hfind). act_red.
  rewrite (resetRow_found _ _ _ _ Hfind1). act_red.
  rewrite rows_of_with_rows, with_rows_twice.
  destruct k; act_red.
  - replace (currentCategoryId
               (with_rows Category
                  (update_row id reset_row
                     (update_row id (set_name (trim (edit_value r))) (rows_of Category p)))
                  p)) with (currentCategoryId p) by reflexivity.
    destruct (bool_decide (currentCategoryId p = Some id)); reflexivity.
  - replace (currentTopicId
               (with_rows Topic
                  (update_row id reset_row
                     (update_row id (set_name (trim (edit_value r))) (rows_of Topic p)))
                  p)) with (currentTopicId p) by reflexivity.
    destruct (bool_decide (currentTopicId p = Some id)); reflexivity.
  - reflexivity.
Qed.

Lemma saved_row (k : Kind) (id : Z) (name : string) (p : Page) (r : Row) :
  find_row id (rows_of k p) = Some r ->
  find_row id (update_row id reset_row (update_row id (set_name name) (rows_of k p))) =
  Some (reset_row (set_name name r)).
Proof.
  intros H. rewrite !find_row_update by reflexivity. now rewrite H.
Qed.
End SaveFacts.

(** C6.  A save click on a row whose edit field holds a name that is
    not empty once trimmed, answered by a success response (HTTP
    success, payload status "ok"): one update request is sent with the
    trimmed name; afterwards the row's name label shows exactly that
    name and the row is back in viewing state.  When the row is the
    selected category, the cached category name is that name and the
    category label reads "選択中カテゴリ：" followed by it; when the row
    is the selected topic, the cached topic name is that name and the
    topic label reads "選択中トピック：" followed by it.  A row that is
    not the selected one leaves the cached name and the label of its
    column as they were. *)
Theorem save_success_updates_display
    (k : Manage.Kind) (id : Z) (p : Manage.Page) (r : Manage.Row) (resp : JS.Response) :
  Manage.find_row id (Manage.rows_of k p) = Some r ->
  JS.trim (Manage.edit_value r) <> "" ->
  success_response resp ->
  let name := JS.trim (Manage.edit_value r) in
  let run := Manage.save_click k id (JS.Responded resp) p in
  JS.result run = JS.Done tt /\
  JS.events (JS.trace run) = [JS.EvFetch (update_request k id name)] /\
  (exists r',
      Manage.find_row id (Manage.rows_of k (JS.final run)) = Some r' /\
      Manage.name_text r' = name /\
      viewing r') /\
  (k = Manage.Category -> Manage.currentCategoryId p = Some id ->
     Manage.currentCategoryId (JS.final run) = Some id /\
     Manage.currentCategoryName (JS.final run) = name /\
     Manage.current_category_label (JS.final run) = "選択中カテゴリ：" +:+ name) /\
  (k = Manage.Topic -> Manage.currentTopicId p = Some id ->
     Manage.currentTopicId (JS.final run) = Some id /\
     Manage.currentTopicName (JS.final run) = name /\
     Manage.current_topic_label (JS.final run) = "選択中トピック：" +:+ name) /\
  (k = Manage.Category -> Manage.currentCategoryId p <> Some id ->
     Manage.currentCategoryName (JS.final run) = Manage.currentCategoryName p /\
     Manage.current_category_label (JS.final run) = Manage.current_category_label p) /\
  (k = Manage.Topic -> Manage.currentTopicId p <> Some id ->
     Manage.currentTopicName (JS.final run) = Manage.currentTopicName p /\
     Manage.current_topic_label (JS.final run) = Manage.current_topic_label p).
Proof.
  intros Hfind Hname Hresp. cbv zeta.
  rewrite (save_click_success k id p r resp Hfind Hname Hresp).
  cbn [JS.final JS.trace JS.result JS.events map fst].
  pose proof (saved_row k id (JS.trim (Manage.edit_value r)) p r Hfind) as Hrow.
  split; [reflexivity|]. split; [reflexivity|].
  split; [|split; [|split; [|split]]].
  - exists (Manage.reset_row (Manage.set_name (JS.trim (Manage.edit_value r)) r)).
    split; [|split; [reflexivity|apply reset_row_viewing]].
    destruct k.
    + destruct (bool_decide (Manage.currentCategoryId p = Some id)); exact Hrow.
    + destruct (bool_decide (Manage.currentTopicId p = Some id)); exact Hrow.
    + exact Hrow.
  - intros -> Hsel. rewrite bool_decide_eq_true_2 by assumption.
    cbn. rewrite Hsel. repeat split.
  - intros -> Hsel. rewrite bool_decide_eq_true_2 by assumption.
    cbn. rewrite Hsel. repeat split.
  - intros -> Hsel. rewrite bool_decide_eq_false_2 by assumption.
    split; reflexivity.
  - intros -> Hsel. rewrite bool_decide_eq_false_2 by assumption.
    split; reflexivity.
Qed.

(** C6 on the sample pages.  On [sample_page_editing] category 1, the
    selected one, is renamed to "A2"; on [sample_page_editing_topic]
    topic 10, the selected one, is renamed to "T9". *)
Lemma save_success_updates_display_sample :
  (let run := Manage.save_click Manage.Category 1 (JS.Responded ok_response)
                sample_page_editing in
   Manage.currentCategoryName (JS.final run) = "A2" /\
   Manage.current_category_label (JS.final run) = "選択中カテゴリ：A2" /\
   option_map Manage.name_text
     (Manage.find_row 1 (Manage.category_rows (JS.final run))) = Some "A2") /\
  (let run := Manage.save_click Manage.Topic 10 (JS.Responded ok_response)
                sample_page_editing_topic in
   Manage.currentTopicName (JS.final run) = "T9" /\
   Manage.current_topic_label (JS.final run) = "選択中トピック：T9" /\
   option_map Manage.name_text
     (Manage.find_row 10 (Manage.topic_list (JS.final run))) = Some "T9").
Proof.
  split.
  - destruct (save_success_updates_display Manage.Category 1 sample_page_editing
                (Manage.set_edit_value " A2 " (Manage.begin_edit (plain_row 1 "A")))
                ok_response)
      as (_ & _ & (r' & Hr & Hn & _) & Hsel & _).
    + reflexivity.
    + discriminate.
    + split; [reflexivity|]. eexists. split; reflexivity.
    + destruct (Hsel eq_refl eq_refl) as (_ & H2 & H3).
      cbv zeta. split; [exact H2|]. split; [exact H3|].
      cbn [Manage.rows_of] in Hr. rewrite Hr. cbn. now rewrite Hn.
  - destruct (save_success_updates_display Manage.Topic 10 sample_page_editing_topic
                (Manage.set_edit_value " T9 "
                   (Manage.begin_edit
                      (Manage.render_row (parser := sample_parser)
                         (Manage.mkEntity 10 "T1"))))
                ok_response)
      as (_ & _ & (r' & Hr & Hn & _) & _ & Hsel & _).
    + reflexivity.
    + discriminate.
    + split; [reflexivity|]. eexists. split; reflexivity.
    + destruct (Hsel eq_refl eq_refl) as (_ & H2 & H3).
      cbv zeta. split; [exact H2|]. split; [exact H3|].
      cbn [Manage.rows_of] in Hr. rewrite Hr. cbn. now rewrite Hn.
Defined.

Section FailureFacts.
Import JS Manage.
Context {parser : Manage.HtmlParser}.

Lemma get_prop_readable (data : jsval) (k : string) :
  data <> JNull -> data <> JUndefined ->
  get_prop data k = Some (field_or_undefined data k).
Proof. intros H1 H2. destruct data; try congruence; reflexivity. Qed.

Lemma payload_readable_inv (resp : Response) (data : jsval) :
  payload_readable resp -> res_body resp = Some data ->
  data <> JNull /\ data <> JUndefined.
Proof.
  unfold payload_readable. intros H E. rewrite E in H.
  destruct data; try contradiction; split; discriminate.
Qed.

(** The end of a failed update or delete, once the handler is
    unfolded: the status test, then the choice of the text. *)
Ltac failure_tail resp data Hbody Hfail H1 H2 :=
  unfold response_failed in Hfail; rewrite Hbody in Hfail;
  rewrite (get_prop_readable data "status" H1 H2) in Hfail;
  rewrite ?(get_prop_readable data _ H1 H2);
  unfold failure_text; rewrite Hbody;
  destruct (res_ok resp); cbn [negb orb] in Hfail; act_red;
  rewrite ?Hfail; act_red;
  rewrite ?(get_prop_readable data _ H1 H2); act_red;
    (destruct (truthy (field_or_undefined data "message")) eqn:E;
   unfold js_or; rewrite ?E; reflexivity).

(** A failed update: the page is exactly as before, and one box shows
    the failure text (after a console line when the body was not
    JSON). *)
Lemma save_click_failure_run (k : Kind) (id : Z) (p : Page) (r : Row) (resp : Response) :
  find_row id (rows_of k p) = Some r ->
  trim (edit_value r) <> "" ->
  response_failed resp = true ->
  payload_readable resp ->
  save_click k id (Responded resp) p =
  mkRun p
    ((EvFetch (update_request k id (trim (edit_value r))), p)
     :: match res_body resp with
        | None => [(EvConsoleError (update_parse_label k), p)]
        | Some _ => []
        end
     ++ [(EvAlert (failure_text (update_failed k) resp), p)])
    (Done tt).
Proof.
  intros Hfind Hname Hfail Hread.
  act_unfold. rewrite (query_found _ _ _ _ Hfind). act_red.
  rewrite bool_decide_eq_false_2 by assumption. act_red.
  destruct (res_body resp) as [data|] eqn:Hbody; act_red.
  - destruct (payload_readable_inv resp data Hread Hbody) as [H1 H2].
    failure_tail resp data Hbody Hfail H1 H2.
  - unfold failure_text. rewrite Hbody. reflexivity.
Qed.

(** A failed delete, confirmed by the user: the page is exactly as
    before, nothing is reloaded, and one box shows the failure text. *)
Lemma delete_click_failure_run (k : Kind) (id : Z) (p : Page) (resp : Response)
    (again : ListOutcome) :
  response_failed resp = true ->
  payload_readable resp ->
  delete_click k id true (Responded resp) again p =
  mkRun p
    ((EvConfirm (delete_prompt k), p)
     :: (EvFetch (delete_request k id), p)
     :: match res_body resp with
        | None => [(EvConsoleError (delete_parse_label k), p)]
        | Some _ => []
        end
     ++ [(EvAlert (failure_text (delete_failed k) resp), p)])
    (Done tt).
Proof.
  intros Hfail Hread.
  act_unfold. act_red.
  destruct (res_body resp) as [data|] eqn:Hbody; act_red.
  - destruct (payload_readable_inv resp data Hread Hbody) as [H1 H2].
    failure_tail resp data Hbody Hfail H1 H2.
  - unfold failure_text. rewrite Hbody. reflexivity.
Qed.

(** No answer at all to a confirmed delete is handled like a body that
    is not JSON. *)
Lemma delete_click_rejected (k : Kind) (id : Z) (p : Page) (again : ListOutcome) :
  delete_click k id true Rejected again p =
  mkRun p
    [(EvConfirm (delete_prompt k), p);
     (EvFetch (delete_request k id), p);
     (EvConsoleError (delete_parse_label k), p);
     (EvAlert (Text (JStr (delete_failed k))), p)]
    (Done tt).
Proof. reflexivity. Qed.
End FailureFacts.

Section Sample_failure_with_null_payload_shows_nothing.
#[local] Existing Instance sample_parser.

(** C1 at the failing input.  The row of category 1 is open with
    " A2 " in its field; the save request is answered by HTTP 500 with
    the body [null].  The body parses, the status test is entered
    because of the HTTP status, and reading [data.message] throws: the
    page is untouched, as the claim says, but no box is shown.  The
    confirmed delete of the same row ends the same way. *)
Theorem failure_with_null_payload_shows_nothing :
  Manage.save_click Manage.Category 1 (JS.Responded null_error_response)
    sample_page_editing =
  JS.mkRun sample_page_editing
    [(JS.EvFetch (update_request Manage.Category 1 "A2"), sample_page_editing)]
    (JS.Threw (JS.Engine JS.TypeError)) /\
  Manage.delete_click Manage.Category 1 true (JS.Responded null_error_response)
    Manage.ListRejected sample_page =
  JS.mkRun sample_page
    [(JS.EvConfirm (Manage.delete_prompt Manage.Category), sample_page);
     (JS.EvFetch (delete_request Manage.Category 1), sample_page)]
    (JS.Threw (JS.Engine JS.TypeError)).
Proof. split; reflexivity. Qed.
End Sample_failure_with_null_payload_shows_nothing.

Section LoadFacts.
Import JS Manage.
Context {parser : Manage.HtmlParser}.

(** [loadTopics] without an answer, or with a body that is not JSON:
    only the part before the [await] has run. *)
Lemma loadTopics_unanswered (id : Z) (name : string) (out : ListOutcome) (p : Page) :
  ~ list_answered out ->
  final (loadTopics id name out p) =
  set_create_areas false (group_create_hidden p)
    (set_category_label (category_label name)
       (set_topic None "" (set_category (Some id) name p))).
Proof.
  intros H. destruct out; cbn in H; try tauto; reflexivity.
Qed.

Lemma loadTopics_answered (id : Z) (name : string) (out : ListOutcome) (p : Page) :
  list_answered out ->
  group_list (final (loadTopics id name out p)) = [] /\
  group_create_hidden (final (loadTopics id name out p)) = true /\
  topic_list (final (loadTopics id name out p)) =
    match out with
    | ListItems items => map render_row items
    | _ => []
    end.
Proof.
  intros H. destruct out; cbn in H; try tauto; repeat split.
Qed.
End LoadFacts.

Section Sample_loadTopics_unanswered_keeps_groups.
#[local] Existing Instance sample_parser.

(** C2 as stated fails when the topic list cannot be fetched:
    [loadTopics] throws at the [await], after the selection variables
    were set and before the lists are cleared.  On [sample_page],
    selecting category 2 with no answer from the server leaves the
    group row of the earlier topic on the page and the group-create
    area visible. *)
Lemma loadTopics_unanswered_keeps_groups :
  let run := Manage.loadTopics 2 "B" Manage.ListRejected sample_page in
  JS.result run = JS.Threw (JS.Engine JS.FetchFailed) /\
  Manage.currentCategoryId (JS.final run) = Some 2 /\
  Manage.currentTopicId (JS.final run) = None /\
  Manage.group_list (JS.final run) = Manage.group_list sample_page /\
  Manage.group_list (JS.final run) <> [] /\
  Manage.group_create_hidden (JS.final run) = false.
Proof. cbv zeta. repeat split. discriminate. Qed.
End Sample_loadTopics_unanswered_keeps_groups.

(** C2, amended.  For every category id and name, [loadTopics] sets
    the current category to (id, name) and the current topic to
    (null, empty string), whatever the server does; once the list
    request has been answered with a JSON body, it has also emptied
    the rendered group list and hidden the group-create area; without
    such an answer the group list and the group-create area are left
    as they were. *)
Theorem loadTopics_resets_selection {parser : Manage.HtmlParser}
    (id : Z) (name : string) (out : Manage.ListOutcome) (p : Manage.Page) :
  let q := JS.final (Manage.loadTopics id name out p) in
  Manage.currentCategoryId q = Some id /\
  Manage.currentCategoryName q = name /\
  Manage.currentTopicId q = None /\
  Manage.currentTopicName q = "" /\
  (list_answered out ->
     Manage.group_list q = [] /\ Manage.group_create_hidden q = true) /\
  (~ list_answered out ->
     Manage.group_list q = Manage.group_list p /\
     Manage.group_create_hidden q = Manage.group_create_hidden p).
Proof.
  cbv zeta. repeat split.
  - destruct out; reflexivity.
  - destruct out; reflexivity.
  - destruct out; reflexivity.
  - destruct out; reflexivity.
  - now destruct (loadTopics_answered id name out p H) as (H1 & _).
  - now destruct (loadTopics_answered id name out p H) as (_ & H2 & _).
  - now rewrite (loadTopics_unanswered id name out p H).
  - now rewrite (loadTopics_unanswered id name out p H).
Qed.

Section Sample_loadTopics_resets_selection_sample.
#[local] Existing Instance sample_parser.

(** C2 on [sample_page]: category 2 is selected and the server
    answers with one topic. *)
Lemma loadTopics_resets_selection_sample :
  let q := JS.final (Manage.loadTopics 2 "B"
                       (Manage.ListItems [Manage.mkEntity 20 "T5"]) sample_page) in
  Manage.currentCategoryId q = Some 2 /\
  Manage.currentTopicId q = None /\
  Manage.group_list q = [] /\
  Manage.group_create_hidden q = true.
Proof.
  destruct (loadTopics_resets_selection 2 "B"
              (Manage.ListItems [Manage.mkEntity 20 "T5"]) sample_page)
    as (H1 & _ & H3 & _ & H5 & _).
  destruct (H5 I) as (H6 & H7).
  cbv zeta. repeat split; assumption.
Defined.
End Sample_loadTopics_resets_selection_sample.

Section Sample_create_ignores_detail_and_http_status.
#[local] Existing Instance sample_parser.

(** C7 at the failing inputs.  Category 1 and topic 10 are selected
    and a name is typed into the create field.

    - The server answers HTTP 422 with [{detail: "name already
      exists"}]: the create handlers read [message] only, so the box
      shows the generic text, not the server's [detail].
    - The server answers HTTP 500 with [{status: "ok"}]: the create
      handlers never look at the HTTP status, so the creation is
      treated as a success; the field is emptied and the list is
      fetched again.
    - The server answers HTTP 500 with a body that is not JSON: the
      unguarded [res.json()] throws and nothing is shown. *)
Theorem create_ignores_detail_and_http_status :
  Manage.handleCreateTopic (JS.Responded detail_error_response)
    Manage.ListRejected sample_page_new_topic =
  JS.mkRun sample_page_new_topic
    [(JS.EvFetch {| JS.url := "/admin/api/topic_create";
                    JS.body := JS.FormData [("category_id", "1"); ("name", "T2")] |},
      sample_page_new_topic);
     (JS.EvAlert (JS.Text (JS.JStr "トピックを追加できませんでした。")),
      sample_page_new_topic)]
    (JS.Done tt) /\
  Manage.handleCreateGroup (JS.Responded detail_error_response)
    Manage.ListRejected sample_page_new_group =
  JS.mkRun sample_page_new_group
    [(JS.EvFetch {| JS.url := "/admin/api/group_create";
                    JS.body := JS.FormData [("topic_id", "10"); ("name", "G2")] |},
      sample_page_new_group);
     (JS.EvAlert (JS.Text (JS.JStr "グループを追加できませんでした。")),
      sample_page_new_group)]
    (JS.Done tt) /\
  (let run := Manage.handleCreateTopic (JS.Responded ok_body_error_response)
                (Manage.ListItems [Manage.mkEntity 10 "T1"; Manage.mkEntity 11 "T2"])
                sample_page_new_topic in
   JS.result run = JS.Done tt /\
   JS.events (JS.trace run) =
     [JS.EvFetch {| JS.url := "/admin/api/topic_create";
                    JS.body := JS.FormData [("category_id", "1"); ("name", "T2")] |};
      JS.EvFetch {| JS.url := "/admin/api/topics?category_id=1";
                    JS.body := JS.NoBody |}] /\
   Manage.new_topic (JS.final run) = "" /\
   map Manage.rid (Manage.topic_list (JS.final run)) = [10; 11]) /\
  Manage.handleCreateTopic (JS.Responded (JS.mkResponse false None))
    Manage.ListRejected sample_page_new_topic =
  JS.mkRun sample_page_new_topic
    [(JS.EvFetch {| JS.url := "/admin/api/topic_create";
                    JS.body := JS.FormData [("category_id", "1"); ("name", "T2")] |},
      sample_page_new_topic)]
    (JS.Threw (JS.Engine JS.SyntaxError)).
Proof. repeat split. Qed.
End Sample_create_ignores_detail_and_http_status.

(** C8.  With a category name that is not empty once trimmed, the
    create handler posts the trimmed name (with empty topic and group
    names) and then reloads the page, for every response: the run does
    not depend on the response, whose status and body are never
    read. *)
Theorem create_category_always_reloads (p : Manage.Page) (resp : JS.Response) :
  JS.trim (Manage.new_category p) <> "" ->
  Manage.handleCreateCategory (JS.Responded resp) p =
  JS.mkRun p
    [(JS.EvFetch (create_category_request (JS.trim (Manage.new_category p))), p);
     (JS.EvReload, p)]
    (JS.Done tt).
Proof.
  intros Hname. act_unfold.
  rewrite bool_decide_eq_false_2 by assumption. reflexivity.
Qed.

(** C8 on [sample_page_new_category], with a server that answers
    HTTP 500 and a body that is not JSON. *)
Lemma create_category_always_reloads_sample :
  JS.events
    (JS.trace (Manage.handleCreateCategory
                 (JS.Responded (JS.mkResponse false None))
                 sample_page_new_category)) =
  [JS.EvFetch (create_category_request "News"); JS.EvReload].
Proof.
  rewrite (create_category_always_reloads sample_page_new_category
             (JS.mkResponse false None)).
  - reflexivity.
  - discriminate.
Defined.

(** ** Further properties of the three scripts *)

Section MoreFacts.
Import JS Toggle Manage.
Context {parser : Manage.HtmlParser}.

Lemma strict_eq_sym (a b : jsnum) : strict_eq a b = strict_eq b a.
Proof. destruct a, b; simpl; auto using Z.eqb_sym. Qed.

(** The name a rendered row shows is the entity's name: the padding of
    the template is white space only. *)
Lemma rendered_row_shows_name :
  trim (name_text (render_row (mkEntity 10 "T1"))) = "T1".
Proof.
  cbn [render_row name_text ent_name].
  rewrite span_text_markup_free by reflexivity. reflexivity.
Qed.
End MoreFacts.

(** X1.  A failed status request: for every toggle whose buttons show
    its stored state and every click on a button of another state,
    when the request fails (fetch rejects, or the HTTP status is not a
    success) the request left while the page showed the target state,
    the toggle ends exactly as it was before the click, and one alert
    box is shown over the restored toggle.  Its text is
    [data.message || "更新に失敗しました"] when the error body is a JSON
    value other than null, and the wording of the raised exception
    otherwise. *)
Theorem click_failure
    (t : Toggle.ToggleEl) (btn : Toggle.StatusBtn) (out : JS.FetchOutcome) :
  consistent t ->
  JS.strict_eq (Toggle.current t) (JS.Num (Toggle.btn_status btn)) = false ->
  request_failed out = true ->
  Toggle.click btn out t =
  JS.mkRun t
    [(JS.EvFetch (status_request t (Toggle.btn_status btn)),
      Toggle.applyActiveState t (JS.Num (Toggle.btn_status btn)));
     (JS.EvAlert (failure_shown out), t)]
    (JS.Done tt).
Proof. exact (click_failure_run t btn out). Qed.

(** The failed status request on the public toggle of post 5, with a
    server that answers HTTP 500 and [{message: "no permission"}]: the
    toggle is back to public and the box shows the server's text. *)
Lemma click_failure_sample :
  Toggle.click (Toggle.mkBtn "private" false)
    (JS.Responded
       (JS.mkResponse false (Some (JS.JObj [("message", JS.JStr "no permission")]))))
    sample_toggle =
  JS.mkRun sample_toggle
    [(JS.EvFetch make_private_request, sample_toggle_private);
     (JS.EvAlert (JS.Text (JS.JStr "no permission")), sample_toggle)]
    (JS.Done tt).
Proof.
  apply (click_failure sample_toggle (Toggle.mkBtn "private" false)); reflexivity.
Defined.

(** X2.  A failed update: for every category, topic or group row
    whose edit field is not empty once trimmed, a save click answered
    by a response that fails to parse as JSON, or has a non-success
    HTTP status, or whose payload status is not "ok" (the payload not
    being null) leaves the whole page as it was and shows one alert
    box: the generic text after a parse failure (with a console line),
    otherwise the payload's message if truthy, else its detail if
    truthy, else the generic text. *)
Theorem save_click_failure
    (k : Manage.Kind) (id : Z) (p : Manage.Page) (r : Manage.Row) (resp : JS.Response) :
  Manage.find_row id (Manage.rows_of k p) = Some r ->
  JS.trim (Manage.edit_value r) <> "" ->
  response_failed resp = true ->
  payload_readable resp ->
  Manage.save_click k id (JS.Responded resp) p =
  JS.mkRun p
    ((JS.EvFetch (update_request k id (JS.trim (Manage.edit_value r))), p)
     :: match JS.res_body resp with
        | None => [(JS.EvConsoleError (Manage.update_parse_label k), p)]
        | Some _ => []
        end
     ++ [(JS.EvAlert (failure_text (Manage.update_failed k) resp), p)])
    (JS.Done tt).
Proof. exact (save_click_failure_run k id p r resp). Qed.

(** The failed update of category 1 on [sample_page_editing], with a
    server that answers HTTP 200 and [{status: "error", message: "",
    detail: "in use"}]: the empty message is passed over and the
    detail is shown. *)
Lemma save_click_failure_sample :
  Manage.save_click Manage.Category 1
    (JS.Responded
       (JS.mkResponse true
          (Some (JS.JObj [("status", JS.JStr "error"); ("message", JS.JStr "");
                          ("detail", JS.JStr "in use")]))))
    sample_page_editing =
  JS.mkRun sample_page_editing
    [(JS.EvFetch (update_request Manage.Category 1 "A2"), sample_page_editing);
     (JS.EvAlert (JS.Text (JS.JStr "in use")), sample_page_editing)]
    (JS.Done tt).
Proof.
  apply (save_click_failure Manage.Category 1 sample_page_editing
           (Manage.set_edit_value " A2 " (Manage.begin_edit (plain_row 1 "A")))).
  - reflexivity.
  - discriminate.
  - reflexivity.
  - exact I.
Defined.

(** X3.  A failed delete: for every category, topic or group row, a
    confirmed delete click answered by a response that fails to parse
    as JSON, or has a non-success HTTP status, or whose payload status
    is not "ok" (the payload not being null) leaves the whole page as
    it was, reloads nothing and shows one alert box, chosen as for a
    failed update. *)
Theorem delete_click_failure {parser : Manage.HtmlParser}
    (k : Manage.Kind) (id : Z) (p : Manage.Page) (resp : JS.Response)
    (again : Manage.ListOutcome) :
  response_failed resp = true ->
  payload_readable resp ->
  Manage.delete_click k id true (JS.Responded resp) again p =
  JS.mkRun p
    ((JS.EvConfirm (Manage.delete_prompt k), p)
     :: (JS.EvFetch (delete_request k id), p)
     :: match JS.res_body resp with
        | None => [(JS.EvConsoleError (Manage.delete_parse_label k), p)]
        | Some _ => []
        end
     ++ [(JS.EvAlert (failure_text (Manage.delete_failed k) resp), p)])
    (JS.Done tt).
Proof. exact (delete_click_failure_run k id p resp again). Qed.

Section Sample_delete_click_failure_sample.
#[local] Existing Instance sample_parser.

(** The failed delete of category 1 on [sample_page], with the
    response [{status: "error", message: "in use"}] of the spec's
    scenario: the box shows "in use" and nothing is reloaded. *)
Lemma delete_click_failure_sample :
  Manage.delete_click Manage.Category 1 true
    (JS.Responded
       (JS.mkResponse true
          (Some (JS.JObj [("status", JS.JStr "error"); ("message", JS.JStr "in use")]))))
    Manage.ListRejected sample_page =
  JS.mkRun sample_page
    [(JS.EvConfirm (Manage.delete_prompt Manage.Category), sample_page);
     (JS.EvFetch (delete_request Manage.Category 1), sample_page);
     (JS.EvAlert (JS.Text (JS.JStr "in use")), sample_page)]
    (JS.Done tt).
Proof.
  apply (delete_click_failure Manage.Category 1 sample_page).
  - reflexivity.
  - exact I.
Defined.
End Sample_delete_click_failure_sample.

(** X4.  Round trip of the toggle (section 8): a click to another state
    that succeeds, then a click back to the original state whose
    request fails, leave the toggle in the state of the first click:
    the failed click undoes only its own change. *)
Theorem toggle_failed_return_keeps_state
    (t : Toggle.ToggleEl) (there back : Toggle.StatusBtn)
    (r1 : JS.Response) (out2 : JS.FetchOutcome) :
  JS.strict_eq (Toggle.current t) (JS.Num (Toggle.btn_status there)) = false ->
  Toggle.current t = JS.Num (Toggle.btn_status back) ->
  JS.res_ok r1 = true ->
  request_failed out2 = true ->
  JS.final (Toggle.click back out2
              (JS.final (Toggle.click there (JS.Responded r1) t))) =
  Toggle.applyActiveState t (JS.Num (Toggle.btn_status there)).
Proof.
  intros Hne Hback Hok Hfail.
  rewrite (click_success t there r1 Hne Hok). cbn [JS.final].
  rewrite click_failure_run; [reflexivity|apply applyActiveState_consistent| |assumption].
  cbn [Toggle.current Toggle.applyActiveState].
  rewrite strict_eq_sym, <- Hback. exact Hne.
Qed.

(** The round trip on the public toggle of post 5. *)
Lemma toggle_failed_return_keeps_state_sample :
  JS.final
    (Toggle.click (Toggle.mkBtn "public" false) JS.Rejected
       (JS.final (Toggle.click (Toggle.mkBtn "private" false)
                    (JS.Responded (JS.mkResponse true None)) sample_toggle))) =
  sample_toggle_private.
Proof.
  rewrite (toggle_failed_return_keeps_state sample_toggle
             (Toggle.mkBtn "private" false) (Toggle.mkBtn "public" false));
    reflexivity.
Defined.

(** X5.  A save click on a row whose edit field is empty once trimmed shows
    the validation text and does nothing else: no request, the page as
    it was. *)
Theorem save_empty_name_is_blocked
    (k : Manage.Kind) (id : Z) (p : Manage.Page) (r : Manage.Row)
    (out : JS.FetchOutcome) :
  Manage.find_row id (Manage.rows_of k p) = Some r ->
  JS.trim (Manage.edit_value r) = "" ->
  Manage.save_click k id out p =
  JS.mkRun p [(JS.EvAlert (JS.Text (JS.JStr (Manage.name_required k))), p)] (JS.Done tt).
Proof.
  intros Hfind Hname. act_unfold.
  rewrite (query_found _ _ _ _ Hfind). act_red.
  rewrite bool_decide_eq_true_2 by assumption. reflexivity.
Qed.

Section Sample_save_empty_name_is_blocked_sample.
#[local] Existing Instance sample_parser.

(** Topic 10 of [sample_page] edited to white space only. *)
Lemma save_empty_name_is_blocked_sample :
  JS.events
    (JS.trace
       (Manage.save_click Manage.Topic 10 JS.Rejected
          (type_into Manage.Topic 10 "  "
             (JS.final (Manage.edit_click Manage.Topic 10 sample_page))))) =
  [JS.EvAlert (JS.Text (JS.JStr "トピック名を入力してください"))].
Proof.
  rewrite (save_empty_name_is_blocked Manage.Topic 10 _
             (Manage.set_edit_value "  "
                (Manage.begin_edit (Manage.render_row (Manage.mkEntity 10 "T1")))));
    reflexivity.
Defined.
End Sample_save_empty_name_is_blocked_sample.

(** X6.  A confirmed delete of a category answered by a success response
    reloads the page and touches nothing else; a delete the user does
    not confirm sends nothing. *)
Theorem delete_category_reloads_on_success {parser : Manage.HtmlParser}
    (id : Z) (p : Manage.Page) (resp : JS.Response) (again : Manage.ListOutcome) :
  success_response resp ->
  Manage.delete_click Manage.Category id true (JS.Responded resp) again p =
  JS.mkRun p
    [(JS.EvConfirm (Manage.delete_prompt Manage.Category), p);
     (JS.EvFetch (delete_request Manage.Category id), p);
     (JS.EvReload, p)]
    (JS.Done tt).
Proof.
  intros (Hok & data & Hbody & Hst). act_unfold. act_red.
  rewrite Hbody. act_red. rewrite Hok. act_red. rewrite Hst. act_red.
  rewrite bool_decide_eq_true_2 by reflexivity. reflexivity.
Qed.

Section Sample_delete_category_reloads_on_success_sample.
#[local] Existing Instance sample_parser.

(** Category 1 of [sample_page] deleted with the answer
    [{status: "ok"}]. *)
Lemma delete_category_reloads_on_success_sample :
  JS.events
    (JS.trace
       (Manage.delete_click Manage.Category 1 true (JS.Responded ok_response)
          Manage.ListRejected sample_page)) =
  [JS.EvConfirm (Manage.delete_prompt Manage.Category);
   JS.EvFetch (delete_request Manage.Category 1);
   JS.EvReload].
Proof.
  rewrite (delete_category_reloads_on_success 1 sample_page ok_response).
  - reflexivity.
  - split; [reflexivity|]. eexists. split; reflexivity.
Defined.
End Sample_delete_category_reloads_on_success_sample.

(** * Further properties of the three scripts, continued *)

(** ** Numbers and their decimal strings *)

Section NumberFacts.
Import JS.

Lemma pretty_N_char_digit (n : N) :
  (n < 10)%N ->
  digit_val 10 (pretty_N_char n) = Some (Z.of_N n) /\
  is_digit (pretty_N_char n) = true.
Proof.
  intros H.
  destruct n as [|d]; [split; reflexivity|].
  do 4 (try (destruct d as [d|d|]; try (exfalso; lia); try (split; reflexivity))).
Qed.

(** Reading back the digits [pretty_N_go] writes in front of [s]. *)
Lemma parse_pretty_N_go (x : N) :
  forall s,
    parse_digits 10 (pretty_N_go x s) None =
    parse_digits 10 s (if decide (x = 0)%N then None else Some (Z.of_N x)).
Proof.
  induction (N.lt_wf_0 x) as [x _ IH]. intros s.
  destruct (decide (x = 0)%N) as [->|Hx].
  - now rewrite pretty_N_go_0.
  - rewrite pretty_N_go_step by lia.
    rewrite IH by (apply N.div_lt; lia).
    destruct (pretty_N_char_digit (x `mod` 10)%N) as [Hd _];
      [apply N.mod_lt; lia|].
    cbn [parse_digits]. rewrite Hd. f_equal. f_equal.
    assert (Hdm : Z.of_N x = 10 * Z.of_N (x `div` 10) + Z.of_N (x `mod` 10)).
    { rewrite (N.div_mod x 10) at 1 by discriminate.
      rewrite N2Z.inj_add, N2Z.inj_mul. reflexivity. }
    destruct (decide (x `div` 10 = 0)%N) as [E|E]; cbn [default]; unfold id.
    + rewrite Hdm, E. reflexivity.
    + now rewrite Hdm.
Qed.

Lemma all_digits_pretty_N_go (x : N) :
  forall s, all_digits s = true -> all_digits (pretty_N_go x s) = true.
Proof.
  induction (N.lt_wf_0 x) as [x _ IH]. intros s Hs.
  destruct (decide (x = 0)%N) as [->|Hx].
  - now rewrite pretty_N_go_0.
  - rewrite pretty_N_go_step by lia. apply IH; [apply N.div_lt; lia|].
    cbn [all_digits]. rewrite Hs.
    destruct (pretty_N_char_digit (x `mod` 10)%N) as [_ ->];
      [apply N.mod_lt; lia|reflexivity].
Qed.

Lemma pretty_N_go_nonempty (x : N) :
  forall s, (0 < x)%N -> pretty_N_go x s <> "".
Proof.
  induction (N.lt_wf_0 x) as [x _ IH]. intros s Hx.
  rewrite pretty_N_go_step by lia.
  destruct (decide (x `div` 10 = 0)%N) as [E|E].
  - rewrite E, pretty_N_go_0. discriminate.
  - apply IH; [apply N.div_lt; lia|].
    now apply N.neq_0_lt_0.
Qed.

Lemma is_digit_cases (a : Ascii.ascii) :
  is_digit a = true ->
  a = "0"%char \/ a = "1"%char \/ a = "2"%char \/ a = "3"%char \/ a = "4"%char \/
  a = "5"%char \/ a = "6"%char \/ a = "7"%char \/ a = "8"%char \/ a = "9"%char.
Proof.
  destruct a as [[] [] [] [] [] [] [] []]; intros H;
    try discriminate H; tauto.
Qed.
End NumberFacts.

Section ParseIntFacts.
Import JS.

Lemma all_digits_cons (a : Ascii.ascii) (r : string) :
  all_digits (String a r) = true -> is_digit a = true /\ all_digits r = true.
Proof. cbn [all_digits]. intros H. now apply andb_true_iff in H. Qed.

(** On a string of decimal digits, with or without a minus sign in
    front, [parseInt] reads all of it in radix 10. *)
Lemma parseInt_digits (s : string) :
  s <> "" -> all_digits s = true ->
  parseInt s =
    match parse_digits 10 s None with Some n => Num n | None => NaN end /\
  parseInt (String "-"%char s) =
    match parse_digits 10 s None with Some n => Num (- n) | None => NaN end.
Proof.
  intros Hne Hs. destruct s as [|a r]; [congruence|].
  destruct (all_digits_cons a r Hs) as [Ha Hr].
  destruct r as [|b r1].
  - destruct (is_digit_cases a Ha) as [->|[->|[->|[->|[->|[->|[->|[->|[->| ->]]]]]]]]];
      split; reflexivity.
  - destruct (all_digits_cons b r1 Hr) as [Hb _].
    destruct (is_digit_cases a Ha) as [->|[->|[->|[->|[->|[->|[->|[->|[->| ->]]]]]]]]];
      destruct (is_digit_cases b Hb) as [->|[->|[->|[->|[->|[->|[->|[->|[->| ->]]]]]]]]];
      destruct r1 as [|c r2]; split; reflexivity.
Qed.

(** Round trip: [parseInt(String(n))] is [n], for every integer. *)
Lemma parseInt_String_of (z : Z) : parseInt (String_of z) = Num z.
Proof.
  unfold String_of, pretty, pretty_Z.
  destruct z as [|p|p].
  - reflexivity.
  - unfold pretty, pretty_positive, pretty, pretty_N.
    destruct (decide (N.pos p = 0%N)) as [E|_]; [discriminate E|].
    destruct (parseInt_digits (pretty_N_go (N.pos p) "")) as [H _].
    + apply pretty_N_go_nonempty. reflexivity.
    + now apply all_digits_pretty_N_go.
    + rewrite H, parse_pretty_N_go. reflexivity.
  - unfold pretty, pretty_positive, pretty, pretty_N.
    destruct (decide (N.pos p = 0%N)) as [E|_]; [discriminate E|].
    destruct (parseInt_digits (pretty_N_go (N.pos p) "")) as [_ H].
    + apply pretty_N_go_nonempty. reflexivity.
    + now apply all_digits_pretty_N_go.
    + change ("-" +:+ pretty_N_go (N.pos p) "")
        with (String "-"%char (pretty_N_go (N.pos p) "")).
      rewrite H, parse_pretty_N_go. reflexivity.
Qed.
End ParseIntFacts.

(** ** The select boxes: default selection, repeated runs, page load *)

Section FilterMoreFacts.
Import JS Filter.

Lemma dropdown_append_all {A : Type} (mk : A -> OptionEl) (l : list A) (sel : SelectEl) :
  dropdown (append_all mk l sel) = dropdown sel.
Proof.
  unfold append_all. revert sel.
  induction l as [|x l IH]; intros sel; simpl; [reflexivity|].
  now rewrite IH.
Qed.

Lemma selected_append_all {A : Type} (mk : A -> OptionEl) (l : list A) (sel : SelectEl) :
  selected (append_all mk l sel) =
  match selected sel with
  | Some i => Some i
  | None =>
      match l with
      | [] => None
      | _ :: _ => if dropdown sel then Some 0%nat else None
      end
  end.
Proof.
  unfold append_all. revert sel.
  induction l as [|x l IH]; intros sel; simpl.
  - now destruct (selected sel).
  - rewrite IH. simpl.
    destruct (selected sel) as [i|]; [reflexivity|].
    destruct (dropdown sel); [reflexivity|].
    now destruct l.
Qed.

(** After a box has been emptied and refilled, a drop-down shows its
    first option and a list box shows none. *)
Lemma selected_repopulated {A : Type} (mk : A -> OptionEl) (l : list A) (sel : SelectEl) :
  selected (append_all mk l (clear_options sel)) =
  match l with
  | [] => None
  | _ :: _ => if dropdown sel then Some 0%nat else None
  end.
Proof. now rewrite selected_append_all. Qed.

Lemma select_value_repopulated {A : Type} (mk : A -> OptionEl) (l : list A)
    (sel : SelectEl) :
  select_value (append_all mk l (clear_options sel)) =
  match l with
  | x :: _ => if dropdown sel then opt_value (mk x) else ""
  | [] => ""
  end.
Proof.
  unfold select_value.
  rewrite selected_repopulated, options_repopulated.
  destruct l as [|x l]; [reflexivity|].
  now destruct (dropdown sel).
Qed.

(** Refilling a refilled box gives the same box. *)
Lemma repopulate_again {A : Type} (mk : A -> OptionEl) (l k : list A) (sel : SelectEl) :
  append_all mk l (clear_options (append_all mk k (clear_options sel))) =
  append_all mk l (clear_options sel).
Proof.
  unfold clear_options at 1. rewrite dropdown_append_all. reflexivity.
Qed.

Lemma set_groupSelect_fields (g : SelectEl) (p : FormPage) :
  topicSelect (set_groupSelect g p) = topicSelect p /\
  categorySelect (set_groupSelect g p) = categorySelect p /\
  groupSelect (set_groupSelect g p) = Some g.
Proof. repeat split. Qed.

Lemma updateGroups_idempotent (p : FormPage) :
  updateGroups (updateGroups p) = updateGroups p.
Proof.
  unfold updateGroups at 2 3.
  destruct (topicSelect p) as [ts|] eqn:Et; [|unfold updateGroups; now rewrite Et].
  destruct (groupSelect p) as [gs|] eqn:Eg; [|unfold updateGroups; now rewrite Et, Eg].
  unfold updateGroups. cbn [set_groupSelect topicSelect groupSelect groups topics
                             categorySelect].
  rewrite Et. unfold set_groupSelect. cbn. now rewrite repopulate_again.
Qed.

Lemma updateTopics_idempotent (p : FormPage) :
  updateTopics (updateTopics p) = updateTopics p.
Proof.
  unfold updateTopics at 2 3.
  destruct (categorySelect p) as [cs|] eqn:Ec; [|unfold updateTopics; now rewrite Ec].
  destruct (topicSelect p) as [ts|] eqn:Et; [|unfold updateTopics; now rewrite Ec, Et].
  set (T := append_all topic_option
              (topicsFor (parseInt (select_value cs)) (topics p)) (clear_options ts)).
  destruct (updateGroups_keeps_topics (set_topicSelect T p)) as (K1 & K2 & K3 & K4).
  unfold updateTopics. rewrite K1, K2, K3. cbn [set_topicSelect topicSelect categorySelect topics].
  rewrite Ec. fold T. unfold T at 1. rewrite repopulate_again. fold T.
  assert (E : set_topicSelect T (updateGroups (set_topicSelect T p)) =
              updateGroups (set_topicSelect T p)).
  { unfold set_topicSelect at 1. rewrite K2, K3, K4.
    destruct (updateGroups (set_topicSelect T p)). cbn in *.
    congruence. }
  rewrite E. apply updateGroups_idempotent.
Qed.

(** Past [updateTopics] the group box is already what [updateGroups]
    makes of it. *)
Lemma updateGroups_after_updateTopics (p : FormPage) :
  is_Some (topicSelect p) ->
  is_Some (categorySelect p) ->
  updateGroups (updateTopics p) = updateTopics p.
Proof.
  intros [ts Et] [cs Ec]. unfold updateTopics. rewrite Ec, Et.
  apply updateGroups_idempotent.
Qed.
End FilterMoreFacts.

Section FilterMoreClaims.
Import JS Filter.

Lemma updateTopics_boxes (p : FormPage) (cs ts gs : SelectEl) :
  categorySelect p = Some cs -> topicSelect p = Some ts -> groupSelect p = Some gs ->
  let T := append_all topic_option
             (topicsFor (parseInt (select_value cs)) (topics p)) (clear_options ts) in
  let G := append_all group_option
             (groupsFor (parseInt (select_value T)) (groups p)) (clear_options gs) in
  updateTopics p =
  {| topics := topics p; groups := groups p; categorySelect := Some cs;
     topicSelect := Some T; groupSelect := Some G |}.
Proof.
  intros Ec Et Eg. cbv zeta. unfold updateTopics. rewrite Ec, Et.
  unfold updateGroups, set_groupSelect, set_topicSelect.
  cbn [topicSelect groupSelect categorySelect topics groups].
  rewrite Eg, Ec. reflexivity.
Qed.

Lemma updateGroups_boxes (tp : list TopicRec) (gr : list GroupRec)
    (c : option SelectEl) (ts gs : SelectEl) :
  updateGroups {| topics := tp; groups := gr; categorySelect := c;
                  topicSelect := Some ts; groupSelect := Some gs |} =
  {| topics := tp; groups := gr; categorySelect := c; topicSelect := Some ts;
     groupSelect :=
       Some (append_all group_option (groupsFor (parseInt (select_value ts)) gr)
               (clear_options gs)) |}.
Proof. reflexivity. Qed.

Lemma select_value_picked (d : bool) (l : list TopicRec) (i : nat) (t : TopicRec) :
  l !! i = Some t ->
  select_value {| dropdown := d; options := map topic_option l; selected := Some i |} =
  String_of (topic_id t).
Proof.
  intros H. unfold select_value. cbn [selected options].
  change (map topic_option l) with (topic_option <$> l).
  now rewrite list_lookup_fmap, H.
Qed.
End FilterMoreClaims.

(** X8.  The default selection after a category change.  When the
    selected category has topics, a topic box that is a drop-down
    shows the first of them, its value is that topic's id in decimal,
    and the group box holds exactly the groups of that topic, in the
    order of the preloaded array.  A topic box that is a list box has
    no option selected after being refilled, its value is the empty
    string, and the group box is emptied. *)
Theorem category_change_default_topic
    (p : Filter.FormPage) (cs ts gs : Filter.SelectEl)
    (t : Filter.TopicRec) (rest : list Filter.TopicRec) :
  Filter.categorySelect p = Some cs ->
  Filter.topicSelect p = Some ts ->
  Filter.groupSelect p = Some gs ->
  Filter.topicsFor (JS.parseInt (Filter.select_value cs)) (Filter.topics p) = t :: rest ->
  exists ts' gs',
    Filter.topicSelect (Filter.updateTopics p) = Some ts' /\
    Filter.groupSelect (Filter.updateTopics p) = Some gs' /\
    (Filter.dropdown ts = true ->
       Filter.select_value ts' = JS.String_of (Filter.topic_id t) /\
       Filter.options gs' =
         map Filter.group_option
           (Filter.groupsFor (JS.Num (Filter.topic_id t)) (Filter.groups p))) /\
    (Filter.dropdown ts = false ->
       Filter.select_value ts' = "" /\ Filter.options gs' = []).
Proof.
  intros Ec Et Eg Hf.
  rewrite (updateTopics_boxes p cs ts gs Ec Et Eg). cbn.
  eexists. eexists. split; [reflexivity|]. split; [reflexivity|].
  rewrite !options_repopulated, !select_value_repopulated, Hf.
  split; intros ->.
  - split; [reflexivity|]. cbn. now rewrite parseInt_String_of.
  - split; [reflexivity|]. now rewrite parseInt_empty, groupsFor_NaN.
Qed.

(** X8 on [sample_form]: category 1 is selected, its first topic is
    10, and the group box shows the groups 100 and 102 of topic 10. *)
Lemma category_change_default_topic_sample :
  exists gs',
    Filter.groupSelect (Filter.updateTopics sample_form) = Some gs' /\
    Filter.options gs' = [Filter.mkOption "100" "G1"; Filter.mkOption "102" "G3"].
Proof.
  destruct (category_change_default_topic sample_form _ _ _
              (Filter.mkTopic 10 "T1" 1) [Filter.mkTopic 12 "T3" 1]
              eq_refl eq_refl eq_refl eq_refl)
    as (ts' & gs' & _ & Hg & Hd & _).
  destruct (Hd eq_refl) as [_ Ho].
  exists gs'. split; [exact Hg|]. rewrite Ho. reflexivity.
Defined.

(** X9.  Running a change handler again without a change of selection
    changes nothing: [updateTopics] after [updateTopics] and
    [updateGroups] after [updateGroups] leave the page as the first
    run left it, whichever boxes the page has. *)
Theorem filter_handlers_idempotent (p : Filter.FormPage) :
  Filter.updateTopics (Filter.updateTopics p) = Filter.updateTopics p /\
  Filter.updateGroups (Filter.updateGroups p) = Filter.updateGroups p.
Proof. split; [apply updateTopics_idempotent|apply updateGroups_idempotent]. Qed.

(** X10.  Picking a topic.  On a page with the three boxes, after the
    topic box has been filled for the selected category, picking its
    option number [i] fills the group box with exactly the groups of
    the [i]-th topic of that category (the option's value, the topic
    id in decimal, reads back as the id), and leaves the options of
    the topic box and the category box as they were. *)
Theorem topic_change_shows_its_groups
    (p : Filter.FormPage) (cs ts gs : Filter.SelectEl) (i : nat) (t : Filter.TopicRec) :
  Filter.categorySelect p = Some cs ->
  Filter.topicSelect p = Some ts ->
  Filter.groupSelect p = Some gs ->
  Filter.topicsFor (JS.parseInt (Filter.select_value cs)) (Filter.topics p) !! i = Some t ->
  let q := Filter.topic_changed i (Filter.updateTopics p) in
  (exists gs',
      Filter.groupSelect q = Some gs' /\
      Filter.options gs' =
        map Filter.group_option
          (Filter.groupsFor (JS.Num (Filter.topic_id t)) (Filter.groups p))) /\
  option_map Filter.options (Filter.topicSelect q) =
    option_map Filter.options (Filter.topicSelect (Filter.updateTopics p)) /\
  Filter.categorySelect q = Filter.categorySelect p.
Proof.
  intros Ec Et Eg Hi. cbv zeta.
  rewrite (updateTopics_boxes p cs ts gs Ec Et Eg).
  unfold Filter.topic_changed.
  cbn [Filter.topics Filter.groups Filter.categorySelect Filter.topicSelect
       Filter.groupSelect].
  rewrite updateGroups_boxes.
  cbn [Filter.categorySelect Filter.topicSelect Filter.groupSelect option_map
       Filter.options].
  split; [|split; [reflexivity|now rewrite Ec]].
  eexists. split; [reflexivity|].
  rewrite !options_repopulated.
  rewrite (select_value_picked _ _ i t Hi).
  now rewrite parseInt_String_of.
Qed.

(** X10 on [sample_form]: the second topic of category 1 is topic 12,
    whose only group is 101. *)
Lemma topic_change_shows_its_groups_sample :
  exists gs',
    Filter.groupSelect (Filter.topic_changed 1 (Filter.updateTopics sample_form)) =
      Some gs' /\
    Filter.options gs' = [Filter.mkOption "101" "G2"].
Proof.
  destruct (topic_change_shows_its_groups sample_form _ _ _ 1%nat
              (Filter.mkTopic 12 "T3" 1) eq_refl eq_refl eq_refl eq_refl)
    as ((gs' & Hg & Ho) & _).
  exists gs'. split; [exact Hg|]. rewrite Ho. reflexivity.
Defined.

(** ** Mode radios and page load of the forms *)

Section RadioFacts.
Import JS Filter.

Lemma apply_mode_twice (r1 r2 : Radio) (lv : Level) :
  apply_mode r2 (apply_mode r1 lv) = apply_mode r2 lv.
Proof.
  unfold apply_mode. cbn [radios select_display input_display].
  destruct (select_display lv), (input_display lv); reflexivity.
Qed.

Lemma apply_mode_value (r1 r2 : Radio) (lv : Level) :
  radio_value r1 = radio_value r2 -> apply_mode r1 lv = apply_mode r2 lv.
Proof. unfold apply_mode. now intros ->. Qed.

Lemma initial_pass_fold (rs : list Radio) (acc : Level) :
  fold_left (fun l r => if radio_checked r then apply_mode r l else l) rs acc =
  match last_checked rs with
  | Some r => apply_mode r acc
  | None => acc
  end.
Proof.
  unfold last_checked. revert acc.
  induction rs as [|r rs IH]; intros acc; [reflexivity|].
  cbn [fold_left List.filter]. rewrite IH.
  destruct (radio_checked r) eqn:E; [|reflexivity].
  destruct (List.filter radio_checked rs) as [|r' l] eqn:F; [reflexivity|].
  rewrite last_cons_cons.
  destruct (last (r' :: l)) as [x|] eqn:L; [apply apply_mode_twice|].
  apply last_None in L. discriminate L.
Qed.

Lemma initial_pass_fixed (rs : list Radio) (lv : Level) :
  (forall r, r ∈ rs -> radio_checked r = true -> apply_mode r lv = lv) ->
  fold_left (fun l r => if radio_checked r then apply_mode r l else l) rs lv = lv.
Proof.
  induction rs as [|r rs IH]; intros H; [reflexivity|].
  cbn [fold_left].
  destruct (radio_checked r) eqn:E.
  - rewrite (H r) by (assumption || constructor).
    apply IH. intros x Hx. apply H. now constructor.
  - apply IH. intros x Hx. apply H. now constructor.
Qed.

Lemma applyInitialRadioState_idempotent (lv : Level) :
  applyInitialRadioState (applyInitialRadioState lv) = applyInitialRadioState lv.
Proof.
  unfold applyInitialRadioState. rewrite (initial_pass_fold (radios lv) lv).
  destruct (last_checked (radios lv)) as [r|] eqn:E.
  - cbn [apply_mode radios]. rewrite initial_pass_fold, E. apply apply_mode_twice.
  - rewrite initial_pass_fold, E. reflexivity.
Qed.
End RadioFacts.

(** X11.  Picking a mode.  On a level that has both its select box and
    its text input, after the user picks a radio exactly one of the
    two controls is shown: the text input when the radio's value is
    "new", the select box for any other value; the picked radio is the
    only checked one; and the page-load pass, run on that state, would
    change nothing. *)
Theorem radio_pick_shows_one_control
    (lv : Filter.Level) (i : nat) (r : Filter.Radio) :
  Filter.radios lv !! i = Some r ->
  is_Some (Filter.select_display lv) ->
  is_Some (Filter.input_display lv) ->
  let lv' := Filter.radio_changed i lv in
  (Filter.radio_value r = "new" ->
     hidden (Filter.select_display lv') /\ shown (Filter.input_display lv')) /\
  (Filter.radio_value r <> "new" ->
     shown (Filter.select_display lv') /\ hidden (Filter.input_display lv')) /\
  (forall j x, Filter.radios lv' !! j = Some x ->
     (Filter.radio_checked x = true <-> j = i)) /\
  Filter.applyInitialRadioState lv' = lv'.
Proof.
  intros Hi [s Hs] [t Ht]. cbv zeta.
  unfold Filter.radio_changed. rewrite Hi.
  unfold Filter.apply_mode at 1 2 3 4 5.
  cbn [Filter.radios Filter.select_display Filter.input_display].
  rewrite Hs, Ht. unfold hidden, shown.
  split; [|split; [|split]].
  - intros E. now rewrite bool_decide_eq_true_2 by assumption.
  - intros E. now rewrite bool_decide_eq_false_2 by assumption.
  - intros j x Hx. unfold Filter.check_radio in Hx.
    rewrite list_lookup_imap in Hx.
    destruct (Filter.radios lv !! j) as [y|]; [|discriminate].
    injection Hx as <-. cbn. apply bool_decide_eq_true.
  - unfold Filter.applyInitialRadioState.
    apply initial_pass_fixed. intros x Hx Hc.
    cbn [Filter.radios] in Hx. unfold Filter.check_radio in Hx.
    apply elem_of_lookup_imap in Hx as (j & y & -> & Hy).
    cbn in Hc. apply bool_decide_eq_true in Hc. subst j.
    rewrite Hi in Hy. injection Hy as <-.
    rewrite (apply_mode_value _ r) by reflexivity.
    rewrite apply_mode_twice. unfold Filter.apply_mode.
    cbn [Filter.radios Filter.select_display Filter.input_display].
    reflexivity.
Qed.

(** X11 on [sample_level]: the user picks "new". *)
Lemma radio_pick_shows_one_control_sample :
  hidden (Filter.select_display (Filter.radio_changed 1 sample_level)) /\
  shown (Filter.input_display (Filter.radio_changed 1 sample_level)).
Proof.
  destruct (radio_pick_shows_one_control sample_level 1%nat (Filter.mkRadio "new" false))
    as (H & _).
  - reflexivity.
  - now eexists.
  - now eexists.
  - apply H. reflexivity.
Defined.

(** X12.  The display at page load follows the last checked radio of
    the level: each control that is on the page gets the display that
    radio's mode asks for; when no radio is checked, the level is left
    exactly as the host page rendered it (so both controls may be
    visible). *)
Theorem initial_mode_follows_last_checked (lv : Filter.Level) :
  Filter.applyInitialRadioState lv =
  match last_checked (Filter.radios lv) with
  | Some r => Filter.apply_mode r lv
  | None => lv
  end.
Proof. unfold Filter.applyInitialRadioState. apply initial_pass_fold. Qed.

Section InitFacts.
Import JS Filter.

Lemma updateTopics_keeps_presence (p : FormPage) :
  categorySelect (updateTopics p) = categorySelect p /\
  (is_Some (topicSelect (updateTopics p)) <-> is_Some (topicSelect p)) /\
  (is_Some (groupSelect (updateTopics p)) <-> is_Some (groupSelect p)) /\
  topics (updateTopics p) = topics p /\
  groups (updateTopics p) = groups p.
Proof.
  unfold updateTopics.
  destruct (categorySelect p) as [cs|] eqn:Ec; [|rewrite Ec; tauto].
  destruct (topicSelect p) as [ts|] eqn:Et; [|rewrite Ec, Et; tauto].
  unfold updateGroups, set_topicSelect, set_groupSelect.
  cbn [topicSelect groupSelect categorySelect topics groups].
  destruct (groupSelect p) as [gs|] eqn:Eg;
    cbn [topicSelect groupSelect categorySelect topics groups];
    rewrite ?Eg; repeat split; auto; intros _; now eexists.
Qed.

Lemma updateGroups_keeps_presence (p : FormPage) :
  is_Some (groupSelect (updateGroups p)) <-> is_Some (groupSelect p).
Proof.
  unfold updateGroups.
  destruct (topicSelect p) as [ts|]; [|tauto].
  destruct (groupSelect p) as [gs|] eqn:Eg; [|now rewrite Eg].
  cbn. split; intros _; now eexists.
Qed.

(** What page load makes of the boxes: one effective run of the
    handler of the topmost box the page has. *)
Lemma initializeCategoryUI_form (u : FormUI) :
  form (initializeCategoryUI u) =
  match topicSelect (form u) with
  | None => form u
  | Some _ =>
      match categorySelect (form u) with
      | Some _ => updateTopics (form u)
      | None => updateGroups (form u)
      end
  end.
Proof.
  unfold initializeCategoryUI. cbn [form].
  destruct (topicSelect (form u)) as [ts|] eqn:Et.
  - destruct (categorySelect (form u)) as [cs|] eqn:Ec.
    + destruct (updateTopics_keeps_presence (form u)) as (_ & [_ K] & _).
      destruct K as [ts' Et']; [now rewrite Et; eexists|].
      rewrite Et'. apply updateGroups_after_updateTopics; rewrite ?Et, ?Ec; now eexists.
    + now rewrite Et.
  - destruct (categorySelect (form u)) as [cs|] eqn:Ec.
    + rewrite updateTopics_guard by now right. now rewrite Et.
    + now rewrite Et.
Qed.
End InitFacts.

(** X13.  Page load of the create / edit forms.  After
    [initializeCategoryUI], whichever of the three boxes the page has:
    when the topic box and the group box are there, the group box
    holds exactly the groups of the topic value the topic box shows;
    when the category box and the topic box are there, the topic box
    holds exactly the topics of the selected category; and running the
    page-load routine a second time changes nothing. *)
Theorem page_load_links_boxes (u : Filter.FormUI) :
  let u' := Filter.initializeCategoryUI u in
  (forall ts' gs',
      Filter.topicSelect (Filter.form u') = Some ts' ->
      Filter.groupSelect (Filter.form u') = Some gs' ->
      Filter.options gs' =
        map Filter.group_option
          (Filter.groupsFor (JS.parseInt (Filter.select_value ts'))
             (Filter.groups (Filter.form u)))) /\
  (forall cs ts',
      Filter.categorySelect (Filter.form u) = Some cs ->
      Filter.topicSelect (Filter.form u') = Some ts' ->
      Filter.options ts' =
        map Filter.topic_option
          (Filter.topicsFor (JS.parseInt (Filter.select_value cs))
             (Filter.topics (Filter.form u)))) /\
  Filter.initializeCategoryUI u' = u'.
Proof.
  cbv zeta. split; [|split].
  - intros ts' gs'. rewrite initializeCategoryUI_form.
    destruct (Filter.topicSelect (Filter.form u)) as [ts|] eqn:Et;
      [|intros H; rewrite Et in H; discriminate H].
    destruct (Filter.groupSelect (Filter.form u)) as [gs|] eqn:Eg.
    + destruct (Filter.categorySelect (Filter.form u)) as [cs|] eqn:Ec.
      * rewrite (updateTopics_boxes _ cs ts gs Ec Et Eg).
        cbn [Filter.topicSelect Filter.groupSelect].
        intros [= <-] [= <-]. apply options_repopulated.
      * destruct (updateGroups_options _ ts gs Et Eg) as (g & H1 & H2).
        destruct (updateGroups_keeps_topics (Filter.form u)) as (K & _).
        rewrite K, Et, H1. intros [= <-] [= <-]. exact H2.
    + intros _ Hg. exfalso.
      assert (N : ~ is_Some (Filter.groupSelect (Filter.form u)))
        by (rewrite Eg; intros [x Hx]; discriminate Hx).
      destruct (Filter.categorySelect (Filter.form u)) as [cs|].
      * apply N. apply updateTopics_keeps_presence. rewrite Hg. now eexists.
      * apply N. apply updateGroups_keeps_presence. rewrite Hg. now eexists.
  - intros cs ts' Ec. rewrite initializeCategoryUI_form, Ec.
    destruct (Filter.topicSelect (Filter.form u)) as [ts|] eqn:Et;
      [|intros H; rewrite Et in H; discriminate H].
    destruct (updateTopics_options _ cs ts Ec Et) as (t & H1 & H2 & _).
    rewrite H1. intros [= <-]. exact H2.
  - pose proof (initializeCategoryUI_form u) as F.
    pose proof (initializeCategoryUI_form (Filter.initializeCategoryUI u)) as F'.
    destruct (Filter.initializeCategoryUI (Filter.initializeCategoryUI u))
      as [f2 c2 t2 g2] eqn:E2.
    destruct (Filter.initializeCategoryUI u) as [f1 c1 t1 g1] eqn:E1.
    cbn [Filter.form] in F, F'.
    unfold Filter.initializeCategoryUI in E2, E1.
    injection E2 as _ <- <- <-. injection E1 as _ <- <- <-.
    rewrite !applyInitialRadioState_idempotent. f_equal.
    rewrite F'. subst f1.
    destruct (Filter.topicSelect (Filter.form u)) as [ts|] eqn:Et.
    + destruct (Filter.categorySelect (Filter.form u)) as [cs|] eqn:Ec.
      * destruct (updateTopics_keeps_presence (Filter.form u)) as (K1 & [_ K2] & _).
        destruct K2 as [ts' Et']; [now rewrite Et; eexists|].
        rewrite Et', K1, Ec. apply updateTopics_idempotent.
      * destruct (updateGroups_keeps_topics (Filter.form u)) as (K1 & K2 & _).
        rewrite K1, K2, Et, Ec. apply updateGroups_idempotent.
    + now rewrite Et.
Qed.

(** ** The status toggle: success, and what every click preserves *)

Section ToggleMoreFacts.
Import JS Toggle.

Lemma map_fixed {A : Type} (f : A -> A) (l : list A) :
  map f l = l -> forall x, x ∈ l -> f x = x.
Proof.
  induction l as [|y l IH]; intros H x Hx; [inversion Hx|].
  cbn in H. injection H as H1 H2.
  apply elem_of_cons in Hx as [->|Hx]; [assumption|now apply IH].
Qed.

Lemma strict_eq_true (a : jsnum) (z : Z) :
  strict_eq (Num z) a = true <-> a = Num z.
Proof.
  destruct a as [|y]; cbn; [split; discriminate|].
  rewrite Z.eqb_eq. split; [now intros ->|now intros [= ->]].
Qed.

(** In a consistent toggle a button is active exactly when its state
    is the stored one. *)
Lemma consistent_active (t : ToggleEl) (b : StatusBtn) :
  consistent t -> b ∈ buttons t ->
  (is_active b = true <-> current t = Num (btn_status b)).
Proof.
  intros Hc Hb. unfold consistent, applyActiveState in Hc.
  assert (Hm : map (fun btn => {| data_status := data_status btn;
                                  is_active := strict_eq (Num (btn_status btn)) (current t) |})
                   (buttons t) = buttons t).
  { destruct t as [po cu bu]. cbn in *. now injection Hc. }
  pose proof (map_fixed _ _ Hm b Hb) as E.
  rewrite <- E at 1. cbn [is_active]. apply strict_eq_true.
Qed.

Lemma click_outcomes (t : ToggleEl) (btn : StatusBtn) (out : FetchOutcome) :
  consistent t ->
  final (click btn out t) = t \/
  final (click btn out t) = applyActiveState t (Num (btn_status btn)).
Proof.
  intros Hc.
  destruct (strict_eq (current t) (Num (btn_status btn))) eqn:E.
  - left. unfold click, bind, get_state. cbn. now rewrite E.
  - destruct (request_failed out) eqn:F.
    + left. now rewrite (click_failure_run t btn out Hc E F).
    + right. destruct out as [|r]; [discriminate F|].
      cbn in F. apply negb_false_iff in F.
      now rewrite (click_success t btn r E F).
Qed.
End ToggleMoreFacts.

(** X14.  A status click that succeeds.  For every toggle and every
    click on a button of another state than the stored one, when the
    server answers with a success status the toggle ends in the target
    state with exactly the buttons of that state active; exactly one
    request was sent, to the post's status address, carrying "public"
    for state 0 and "private" otherwise; nothing is shown, and the
    response body is never read. *)
Theorem toggle_click_success
    (t : Toggle.ToggleEl) (btn : Toggle.StatusBtn) (r : JS.Response) :
  JS.strict_eq (Toggle.current t) (JS.Num (Toggle.btn_status btn)) = false ->
  JS.res_ok r = true ->
  let run := Toggle.click btn (JS.Responded r) t in
  JS.result run = JS.Done tt /\
  JS.events (JS.trace run) =
    [JS.EvFetch (status_request t (Toggle.btn_status btn))] /\
  Toggle.current (JS.final run) = JS.Num (Toggle.btn_status btn) /\
  (forall b, b ∈ Toggle.buttons (JS.final run) ->
     (Toggle.is_active b = true <-> Toggle.btn_status b = Toggle.btn_status btn)).
Proof.
  intros Hne Hok. cbv zeta. rewrite (click_success t btn r Hne Hok).
  cbn [JS.result JS.trace JS.final JS.events map fst].
  split; [reflexivity|]. split; [reflexivity|]. split; [reflexivity|].
  intros b Hb.
  rewrite (consistent_active _ b (applyActiveState_consistent t _) Hb).
  cbn [Toggle.current Toggle.applyActiveState].
  split; [now intros [= ->]|now intros ->].
Qed.

(** X14 on the public toggle of post 5, made private. *)
Lemma toggle_click_success_sample :
  JS.final (Toggle.click (Toggle.mkBtn "private" false)
              (JS.Responded (JS.mkResponse true None)) sample_toggle) =
  sample_toggle_private /\
  JS.events (JS.trace (Toggle.click (Toggle.mkBtn "private" false)
                         (JS.Responded (JS.mkResponse true None)) sample_toggle)) =
  [JS.EvFetch make_private_request].
Proof.
  destruct (toggle_click_success sample_toggle (Toggle.mkBtn "private" false)
              (JS.mkResponse true None) eq_refl eq_refl) as (_ & H & _).
  split; [reflexivity|exact H].
Defined.

(** X15.  What the toggle script keeps.  After the page-load pass
    every toggle is consistent: a button is active exactly when its
    state is the stored one (so a toggle whose stored state is neither
    0 nor 1 has no active button).  Every click, whatever the server
    does, keeps the toggle consistent, leaves the post id and the
    buttons' states alone, and ends either in the state before the
    click or in the state of the clicked button. *)
Theorem toggle_stays_consistent :
  (forall toggles, Forall consistent (Toggle.init_all toggles)) /\
  (forall t b, consistent t -> b ∈ Toggle.buttons t ->
     (Toggle.is_active b = true <-> Toggle.current t = JS.Num (Toggle.btn_status b))) /\
  (forall t btn out, consistent t ->
     let t' := JS.final (Toggle.click btn out t) in
     consistent t' /\
     Toggle.postId t' = Toggle.postId t /\
     map Toggle.data_status (Toggle.buttons t') = map Toggle.data_status (Toggle.buttons t) /\
     (Toggle.current t' = Toggle.current t \/
      Toggle.current t' = JS.Num (Toggle.btn_status btn))).
Proof.
  split; [|split].
  - intros toggles. unfold Toggle.init_all. apply Forall_forall.
    intros x Hx. apply list_elem_of_fmap in Hx as (y & -> & _).
    apply init_consistent.
  - intros t b. apply consistent_active.
  - intros t btn out Hc. cbv zeta.
    destruct (click_outcomes t btn out Hc) as [-> | ->].
    + repeat split; auto.
    + split; [apply applyActiveState_consistent|].
      split; [reflexivity|]. split; [|now right].
      cbn. now rewrite map_map.
Qed.

(** ** Trimming and the row template *)

Section TrimFacts.
Import JS.





End TrimFacts.

Section TrimAppFacts.
Import JS.
Context {parser : Manage.HtmlParser}.

Lemma blank_cons_space (a : Ascii.ascii) (r : string) :
  Ascii.is_space a = true -> blank (String a r) = blank r.
Proof. intros H. unfold blank. cbn [trim_start]. now rewrite H. Qed.





End TrimAppFacts.

(** ** The management page: rows side by side, rendering, reloads *)

Section RowMoreFacts.
Import JS Manage.
Context {parser : Manage.HtmlParser}.





Lemma rendered_rows_ids (items : list Entity) :
  map rid (map render_row items) = map ent_id items.
Proof. rewrite map_map. reflexivity. Qed.
End RowMoreFacts.



Section LoadMoreFacts.
Import JS Manage.
Context {parser : Manage.HtmlParser}.

Lemma loadTopics_items (id : Z) (name : string) (items : list Entity) (p : Page) :
  loadTopics id name (ListItems items) p =
  mkRun
    (with_rows Topic (map render_row items)
       (final (loadTopics id name ListNotArray p)))
    [(EvFetch (topics_request id),
      set_create_areas false (group_create_hidden p)
        (set_category_label (category_label name)
           (set_topic None "" (set_category (Some id) name p))))]
    (Done tt).
Proof. reflexivity. Qed.

Lemma loadGroups_items (id : Z) (name : string) (items : list Entity) (p : Page) :
  loadGroups id name (ListItems items) p =
  mkRun
    (with_rows Group (map render_row items)
       (final (loadGroups id name ListNotArray p)))
    [(EvFetch (groups_request id),
      set_create_areas (topic_create_hidden p) false
        (set_topic_label (topic_label name) (set_topic (Some id) name p)))]
    (Done tt).
Proof. reflexivity. Qed.

Lemma loadTopics_events (id : Z) (name : string) (out : ListOutcome) (p : Page) :
  events (trace (loadTopics id name out p)) = [EvFetch (topics_request id)].
Proof. destruct out; reflexivity. Qed.

Lemma loadGroups_events (id : Z) (name : string) (out : ListOutcome) (p : Page) :
  events (trace (loadGroups id name out p)) = [EvFetch (groups_request id)].
Proof. destruct out; reflexivity. Qed.
End LoadMoreFacts.


Section Sample_loadTopics_renders_rows_sample.
#[local] Existing Instance sample_parser.

End Sample_loadTopics_renders_rows_sample.


Section Sample_loadGroups_selects_topic_sample.
#[local] Existing Instance sample_parser.

End Sample_loadGroups_selects_topic_sample.

Section DeleteMoreFacts.
Import JS Manage.
Context {parser : Manage.HtmlParser}.

(** A confirmed delete answered by a success response, up to what
    follows the status test. *)
Lemma delete_click_success_prefix (k : Kind) (id : Z) (p : Page) (resp : Response)
    (again : ListOutcome) :
  success_response resp ->
  delete_click k id true (Responded resp) again p =
  match
    (match k with
     | Category => emit EvReload
     | Topic =>
         match currentCategoryId p with
         | Some c => detached (loadTopics c (currentCategoryName p) again)
         | None => ret tt
         end
     | Group =>
         match currentTopicId p with
         | Some t => detached (loadGroups t (currentTopicName p) again)
         | None => ret tt
         end
     end) p
  with
  | mkRun s2 t2 r2 =>
      mkRun s2 ((EvConfirm (delete_prompt k), p)
                :: (EvFetch (delete_request k id), p) :: t2) r2
  end.
Proof.
  intros (Hok & data & Hbody & Hst).
  unfold delete_click, api_failed, fetch, read_json, prop, try_catch, bind, emit, ret,
    get_state.
  act_red. rewrite Hbody. act_red. rewrite Hok. act_red. rewrite Hst. act_red.
  rewrite bool_decide_eq_true_2 by reflexivity. act_red.
  destruct k; act_red.
  - reflexivity.
  - destruct (currentCategoryId p) as [c|]; [|reflexivity].
    destruct (detached (loadTopics c (currentCategoryName p) again) p)
      as [s1 t1 r1]; reflexivity.
  - destruct (currentTopicId p) as [t|]; [|reflexivity].
    destruct (detached (loadGroups t (currentTopicName p) again) p)
      as [s1 t1 r1]; reflexivity.
Qed.

Lemma detached_run (m : Act Page unit) (p : Page) :
  final (detached m p) = final (m p) /\ trace (detached m p) = trace (m p).
Proof.
  unfold detached, try_catch.
  destruct (m p) as [s1 t1 [[]|e]]; cbn; [split; reflexivity|].
  split; [reflexivity|apply app_nil_r].
Qed.
End DeleteMoreFacts.

(** X18.  Deleting a topic.  A confirmed topic delete answered by a
    success response never throws.  When a category is selected it
    sends the delete request and then reloads that category's topics
    exactly as a click on the category would: the page ends as
    [loadTopics] leaves it, so the topic selection is cleared, and
    with an array as answer the topic list is rendered anew and the
    group list emptied.  When no category is selected nothing is
    reloaded and the page stays as it was. *)
Theorem topic_delete_reloads_topics {parser : Manage.HtmlParser}
    (id : Z) (p : Manage.Page) (resp : JS.Response) (again : Manage.ListOutcome) :
  success_response resp ->
  let run := Manage.delete_click Manage.Topic id true (JS.Responded resp) again p in
  JS.result run = JS.Done tt /\
  (forall c, Manage.currentCategoryId p = Some c ->
     JS.events (JS.trace run) =
       [JS.EvConfirm (Manage.delete_prompt Manage.Topic);
        JS.EvFetch (delete_request Manage.Topic id);
        JS.EvFetch (topics_request c)] /\
     JS.final run =
       JS.final (Manage.loadTopics c (Manage.currentCategoryName p) again p) /\
     Manage.currentCategoryId (JS.final run) = Some c /\
     Manage.currentTopicId (JS.final run) = None /\
     (forall items, again = Manage.ListItems items ->
        map Manage.rid (Manage.topic_list (JS.final run)) = map Manage.ent_id items /\
        Manage.group_list (JS.final run) = [])) /\
  (Manage.currentCategoryId p = None ->
     run = JS.mkRun p
             [(JS.EvConfirm (Manage.delete_prompt Manage.Topic), p);
              (JS.EvFetch (delete_request Manage.Topic id), p)]
             (JS.Done tt)).
Proof.
  intros Hresp. cbv zeta.
  rewrite (delete_click_success_prefix Manage.Topic id p resp again Hresp).
  destruct (Manage.currentCategoryId p) as [c|] eqn:Ec.
  - pose proof (detached_never_throws
                  (Manage.loadTopics c (Manage.currentCategoryName p) again) p) as R.
    destruct (detached_run
                (Manage.loadTopics c (Manage.currentCategoryName p) again) p) as [F T].
    destruct (JS.detached (Manage.loadTopics c (Manage.currentCategoryName p) again) p)
      as [s2 t2 r2].
    cbn [JS.final JS.trace JS.result] in *. subst s2 t2 r2.
    split; [reflexivity|]. split; [|discriminate].
    intros c' [= <-].
    split.
    { cbn [JS.events map fst]. f_equal. f_equal. apply loadTopics_events. }
    split; [reflexivity|].
    split; [destruct again; reflexivity|].
    split; [destruct again; reflexivity|].
    intros items ->. rewrite loadTopics_items. cbn [JS.final].
    split; [apply rendered_rows_ids|reflexivity].
  - cbn. split; [reflexivity|]. split; [discriminate|reflexivity].
Qed.

Section Sample_topic_delete_reloads_topics_sample.
#[local] Existing Instance sample_parser.

(** X18 on [sample_page]: topic 10 deleted, the server then lists no
    topic for category 1. *)
Lemma topic_delete_reloads_topics_sample :
  let run := Manage.delete_click Manage.Topic 10 true (JS.Responded ok_response)
               (Manage.ListItems []) sample_page in
  Manage.topic_list (JS.final run) = [] /\
  Manage.currentTopicId (JS.final run) = None.
Proof.
  destruct (topic_delete_reloads_topics 10 sample_page ok_response (Manage.ListItems []))
    as (_ & H & _).
  - split; [reflexivity|]. eexists. split; reflexivity.
  - destruct (H 1 eq_refl) as (_ & _ & _ & Ht & Hl).
    destruct (Hl [] eq_refl) as [Hr _].
    cbv zeta. split; [|exact Ht].
    now apply map_eq_nil in Hr.
Defined.
End Sample_topic_delete_reloads_topics_sample.

(** X19.  Deleting a group.  A confirmed group delete answered by a
    success response never throws.  When a topic is selected it sends
    the delete request and then reloads that topic's groups exactly
    as a click on the topic would: the topic selection and the topic
    list are kept, and with an array as answer the group list is
    rendered anew.  When no topic is selected nothing is reloaded. *)
Theorem group_delete_reloads_groups {parser : Manage.HtmlParser}
    (id : Z) (p : Manage.Page) (resp : JS.Response) (again : Manage.ListOutcome) :
  success_response resp ->
  let run := Manage.delete_click Manage.Group id true (JS.Responded resp) again p in
  JS.result run = JS.Done tt /\
  (forall t, Manage.currentTopicId p = Some t ->
     JS.events (JS.trace run) =
       [JS.EvConfirm (Manage.delete_prompt Manage.Group);
        JS.EvFetch (delete_request Manage.Group id);
        JS.EvFetch (groups_request t)] /\
     JS.final run =
       JS.final (Manage.loadGroups t (Manage.currentTopicName p) again p) /\
     Manage.currentTopicId (JS.final run) = Some t /\
     Manage.currentTopicName (JS.final run) = Manage.currentTopicName p /\
     Manage.topic_list (JS.final run) = Manage.topic_list p /\
     (forall items, again = Manage.ListItems items ->
        map Manage.rid (Manage.group_list (JS.final run)) = map Manage.ent_id items)) /\
  (Manage.currentTopicId p = None ->
     run = JS.mkRun p
             [(JS.EvConfirm (Manage.delete_prompt Manage.Group), p);
              (JS.EvFetch (delete_request Manage.Group id), p)]
             (JS.Done tt)).
Proof.
  intros Hresp. cbv zeta.
  rewrite (delete_click_success_prefix Manage.Group id p resp again Hresp).
  destruct (Manage.currentTopicId p) as [t|] eqn:Et.
  - pose proof (detached_never_throws
                  (Manage.loadGroups t (Manage.currentTopicName p) again) p) as R.
    destruct (detached_run
                (Manage.loadGroups t (Manage.currentTopicName p) again) p) as [F T].
    destruct (JS.detached (Manage.loadGroups t (Manage.currentTopicName p) again) p)
      as [s2 t2 r2].
    cbn [JS.final JS.trace JS.result] in *. subst s2 t2 r2.
    split; [reflexivity|]. split; [|discriminate].
    intros t' [= <-].
    split.
    { cbn [JS.events map fst]. f_equal. f_equal. apply loadGroups_events. }
    split; [reflexivity|].
    split; [destruct again; reflexivity|].
    split; [destruct again; reflexivity|].
    split; [destruct again; reflexivity|].
    intros items ->. rewrite loadGroups_items. cbn [JS.final].
    apply rendered_rows_ids.
  - cbn. split; [reflexivity|]. split; [discriminate|reflexivity].
Qed.

Section Sample_group_delete_reloads_groups_sample.
#[local] Existing Instance sample_parser.

(** X19 on [sample_page]: group 100 deleted, the server then lists
    group 101 for topic 10. *)
Lemma group_delete_reloads_groups_sample :
  map Manage.rid
    (Manage.group_list
       (JS.final (Manage.delete_click Manage.Group 100 true (JS.Responded ok_response)
                    (Manage.ListItems [Manage.mkEntity 101 "G2"]) sample_page))) =
  [101].
Proof.
  destruct (group_delete_reloads_groups 100 sample_page ok_response
              (Manage.ListItems [Manage.mkEntity 101 "G2"]))
    as (_ & H & _).
  - split; [reflexivity|]. eexists. split; reflexivity.
  - destruct (H 10 eq_refl) as (_ & _ & _ & _ & _ & Hl).
    exact (Hl _ eq_refl).
Defined.
End Sample_group_delete_reloads_groups_sample.

(** X20.  No consent, no server.  A delete the user declines sends
    nothing and leaves the page as it was.  When the server cannot be
    reached ([fetch] rejects), only the delete handlers tell the user:
    they log, show their generic text and leave the page as it was.
    The save handler and the three create handlers throw out of the
    handler after the request: nothing is shown, the page is as it
    was, the create fields keep their text and nothing is reloaded. *)
Theorem unreachable_server_or_declined {parser : Manage.HtmlParser}
    (k : Manage.Kind) (id : Z) (p : Manage.Page) (out : JS.FetchOutcome)
    (again : Manage.ListOutcome) :
  Manage.delete_click k id false out again p =
    JS.mkRun p [(JS.EvConfirm (Manage.delete_prompt k), p)] (JS.Done tt) /\
  Manage.delete_click k id true JS.Rejected again p =
    JS.mkRun p
      [(JS.EvConfirm (Manage.delete_prompt k), p);
       (JS.EvFetch (delete_request k id), p);
       (JS.EvConsoleError (Manage.delete_parse_label k), p);
       (JS.EvAlert (JS.Text (JS.JStr (Manage.delete_failed k))), p)]
      (JS.Done tt) /\
  (forall r, Manage.find_row id (Manage.rows_of k p) = Some r ->
     JS.trim (Manage.edit_value r) <> "" ->
     Manage.save_click k id JS.Rejected p =
       JS.mkRun p
         [(JS.EvFetch (update_request k id (JS.trim (Manage.edit_value r))), p)]
         (JS.Threw (JS.Engine JS.FetchFailed))) /\
  (JS.trim (Manage.new_category p) <> "" ->
     Manage.handleCreateCategory JS.Rejected p =
       JS.mkRun p
         [(JS.EvFetch (create_category_request (JS.trim (Manage.new_category p))), p)]
         (JS.Threw (JS.Engine JS.FetchFailed))) /\
  (forall c, Manage.currentCategoryId p = Some c ->
     JS.trim (Manage.new_topic p) <> "" ->
     Manage.handleCreateTopic JS.Rejected again p =
       JS.mkRun p
         [(JS.EvFetch (create_topic_request c (JS.trim (Manage.new_topic p))), p)]
         (JS.Threw (JS.Engine JS.FetchFailed))) /\
  (forall t, Manage.currentTopicId p = Some t ->
     JS.trim (Manage.new_group p) <> "" ->
     Manage.handleCreateGroup JS.Rejected again p =
       JS.mkRun p
         [(JS.EvFetch (create_group_request t (JS.trim (Manage.new_group p))), p)]
         (JS.Threw (JS.Engine JS.FetchFailed))).
Proof.
  split; [reflexivity|]. split; [reflexivity|]. split; [|split; [|split]].
  - intros r Hfind Hname. act_unfold.
    rewrite (query_found _ _ _ _ Hfind). act_red.
    now rewrite bool_decide_eq_false_2 by assumption.
  - intros Hname. act_unfold.
    now rewrite bool_decide_eq_false_2 by assumption.
  - intros c Hc Hname.
    unfold Manage.handleCreateTopic, JS.bind, JS.get_state. rewrite Hc.
    rewrite bool_decide_eq_false_2 by assumption. reflexivity.
  - intros t Ht Hname.
    unfold Manage.handleCreateGroup, JS.bind, JS.get_state. rewrite Ht.
    rewrite bool_decide_eq_false_2 by assumption. reflexivity.
Qed.

Section Sample_unreachable_server_or_declined_sample.
#[local] Existing Instance sample_parser.

(** X20 on [sample_page_editing]: the save of category 1 with the
    server down. *)
Lemma unreachable_server_or_declined_sample :
  Manage.save_click Manage.Category 1 JS.Rejected sample_page_editing =
  JS.mkRun sample_page_editing
    [(JS.EvFetch (update_request Manage.Category 1 "A2"), sample_page_editing)]
    (JS.Threw (JS.Engine JS.FetchFailed)).
Proof.
  destruct (unreachable_server_or_declined Manage.Category 1 sample_page_editing
              JS.Rejected Manage.ListRejected) as (_ & _ & H & _).
  apply (H (Manage.set_edit_value " A2 " (Manage.begin_edit (plain_row 1 "A")))).
  - reflexivity.
  - discriminate.
Defined.
End Sample_unreachable_server_or_declined_sample.

(** X21.  What the create forms refuse.  A category name that is
    empty once trimmed, a topic without a selected category or with an
    empty name, a group without a selected topic or with an empty
    name: each shows its own message and nothing else happens; no
    request is sent and the page is as it was.  The missing parent is
    reported before the name is looked at. *)
Theorem create_forms_validate {parser : Manage.HtmlParser}
    (p : Manage.Page) (out : JS.FetchOutcome) (again : Manage.ListOutcome) :
  (JS.trim (Manage.new_category p) = "" ->
     Manage.handleCreateCategory out p =
       JS.mkRun p [(JS.EvAlert (JS.Text (JS.JStr "カテゴリ名は必須です")), p)] (JS.Done tt)) /\
  (Manage.currentCategoryId p = None ->
     Manage.handleCreateTopic out again p =
       JS.mkRun p [(JS.EvAlert (JS.Text (JS.JStr "先にカテゴリを選択してください")), p)]
         (JS.Done tt)) /\
  (Manage.currentCategoryId p <> None -> JS.trim (Manage.new_topic p) = "" ->
     Manage.handleCreateTopic out again p =
       JS.mkRun p [(JS.EvAlert (JS.Text (JS.JStr "トピック名を入力してください")), p)]
         (JS.Done tt)) /\
  (Manage.currentTopicId p = None ->
     Manage.handleCreateGroup out again p =
       JS.mkRun p [(JS.EvAlert (JS.Text (JS.JStr "先にトピックを選択してください")), p)]
         (JS.Done tt)) /\
  (Manage.currentTopicId p <> None -> JS.trim (Manage.new_group p) = "" ->
     Manage.handleCreateGroup out again p =
       JS.mkRun p [(JS.EvAlert (JS.Text (JS.JStr "グループ名を入力してください")), p)]
         (JS.Done tt)).
Proof.
  split; [|split; [|split; [|split]]].
  - intros H. unfold Manage.handleCreateCategory, JS.bind, JS.get_state.
    now rewrite bool_decide_eq_true_2 by assumption.
  - intros H. unfold Manage.handleCreateTopic, JS.bind, JS.get_state. now rewrite H.
  - intros Hc H. unfold Manage.handleCreateTopic, JS.bind, JS.get_state.
    destruct (Manage.currentCategoryId p); [|congruence].
    now rewrite bool_decide_eq_true_2 by assumption.
  - intros H. unfold Manage.handleCreateGroup, JS.bind, JS.get_state. now rewrite H.
  - intros Hc H. unfold Manage.handleCreateGroup, JS.bind, JS.get_state.
    destruct (Manage.currentTopicId p); [|congruence].
    now rewrite bool_decide_eq_true_2 by assumption.
Qed.

Section CreateMoreFacts.
Import JS Manage.
Context {parser : Manage.HtmlParser}.

Lemma handleCreateTopic_accepted (p : Page) (c : Z) (resp : Response)
    (again : ListOutcome) :
  currentCategoryId p = Some c ->
  trim (new_topic p) <> "" ->
  payload_ok resp ->
  handleCreateTopic (Responded resp) again p =
  match
    detached (loadTopics c (currentCategoryName p) again)
      (set_inputs (new_category p) "" (new_group p) p)
  with
  | mkRun s2 t2 r2 =>
      mkRun s2 ((EvFetch (create_topic_request c (trim (new_topic p))), p) :: t2) r2
  end.
Proof.
  intros Hc Hname (data & Hbody & Hst).
  unfold handleCreateTopic, fetch, read_json, prop, bind, emit, ret, get_state, modify.
  rewrite Hc. rewrite bool_decide_eq_false_2 by assumption.
  act_red. rewrite Hbody. act_red. rewrite Hst. act_red.
  rewrite bool_decide_eq_true_2 by reflexivity.
  destruct (detached _ _) as [s2 t2 r2]. reflexivity.
Qed.

Lemma handleCreateGroup_accepted (p : Page) (t : Z) (resp : Response)
    (again : ListOutcome) :
  currentTopicId p = Some t ->
  trim (new_group p) <> "" ->
  payload_ok resp ->
  handleCreateGroup (Responded resp) again p =
  match
    detached (loadGroups t (currentTopicName p) again)
      (set_inputs (new_category p) (new_topic p) "" p)
  with
  | mkRun s2 t2 r2 =>
      mkRun s2 ((EvFetch (create_group_request t (trim (new_group p))), p) :: t2) r2
  end.
Proof.
  intros Hc Hname (data & Hbody & Hst).
  unfold handleCreateGroup, fetch, read_json, prop, bind, emit, ret, get_state, modify.
  rewrite Hc. rewrite bool_decide_eq_false_2 by assumption.
  act_red. rewrite Hbody. act_red. rewrite Hst. act_red.
  rewrite bool_decide_eq_true_2 by reflexivity.
  destruct (detached _ _) as [s2 t2 r2]. reflexivity.
Qed.
End CreateMoreFacts.

(** X22.  Creating a topic.  With a category selected and a name that
    is not empty once trimmed, a payload that says status "ok" makes
    the handler send the creation request with the trimmed name, empty
    the new-topic field and reload the topics of the selected category
    as a click on the category would; it never throws, even when the
    reload fails.  The category selection is kept, the topic selection
    is cleared, and with an array as answer the topic list is rendered
    anew and the group list emptied. *)
Theorem create_topic_accepted {parser : Manage.HtmlParser}
    (p : Manage.Page) (c : Z) (resp : JS.Response) (again : Manage.ListOutcome) :
  Manage.currentCategoryId p = Some c ->
  JS.trim (Manage.new_topic p) <> "" ->
  payload_ok resp ->
  let run := Manage.handleCreateTopic (JS.Responded resp) again p in
  JS.result run = JS.Done tt /\
  JS.events (JS.trace run) =
    [JS.EvFetch (create_topic_request c (JS.trim (Manage.new_topic p)));
     JS.EvFetch (topics_request c)] /\
  Manage.new_topic (JS.final run) = "" /\
  Manage.new_category (JS.final run) = Manage.new_category p /\
  Manage.new_group (JS.final run) = Manage.new_group p /\
  Manage.currentCategoryId (JS.final run) = Some c /\
  Manage.currentCategoryName (JS.final run) = Manage.currentCategoryName p /\
  Manage.currentTopicId (JS.final run) = None /\
  (forall items, again = Manage.ListItems items ->
     map Manage.rid (Manage.topic_list (JS.final run)) = map Manage.ent_id items /\
     Manage.group_list (JS.final run) = []).
Proof.
  intros Hc Hname Hresp. cbv zeta.
  rewrite (handleCreateTopic_accepted p c resp again Hc Hname Hresp).
  set (p1 := Manage.set_inputs (Manage.new_category p) "" (Manage.new_group p) p).
  pose proof (detached_never_throws
                (Manage.loadTopics c (Manage.currentCategoryName p) again) p1) as R.
  destruct (detached_run
              (Manage.loadTopics c (Manage.currentCategoryName p) again) p1) as [F T].
  destruct (JS.detached (Manage.loadTopics c (Manage.currentCategoryName p) again) p1)
    as [s2 t2 r2].
  cbn [JS.final JS.trace JS.result] in *. subst s2 t2 r2.
  split; [reflexivity|].
  split; [cbn [JS.events map fst]; f_equal; apply loadTopics_events|].
  do 6 (split; [destruct again; reflexivity|]).
  intros items ->. split; [|reflexivity].
  rewrite loadTopics_items. apply rendered_rows_ids.
Qed.

Section Sample_create_topic_accepted_sample.
#[local] Existing Instance sample_parser.

(** X22 on [sample_page_new_topic]: "T2" is created in category 1 and
    the server then lists topics 10 and 11. *)
Lemma create_topic_accepted_sample :
  let run := Manage.handleCreateTopic (JS.Responded ok_response)
               (Manage.ListItems [Manage.mkEntity 10 "T1"; Manage.mkEntity 11 "T2"])
               sample_page_new_topic in
  Manage.new_topic (JS.final run) = "" /\
  map Manage.rid (Manage.topic_list (JS.final run)) = [10; 11].
Proof.
  destruct (create_topic_accepted sample_page_new_topic 1 ok_response
              (Manage.ListItems [Manage.mkEntity 10 "T1"; Manage.mkEntity 11 "T2"]))
    as (_ & _ & H1 & _ & _ & _ & _ & _ & H2).
  - reflexivity.
  - discriminate.
  - eexists. split; reflexivity.
  - cbv zeta. split; [exact H1|]. exact (proj1 (H2 _ eq_refl)).
Defined.
End Sample_create_topic_accepted_sample.

(** X23.  Creating a group.  With a topic selected and a name that is
    not empty once trimmed, a payload that says status "ok" makes the
    handler send the creation request with the trimmed name, empty the
    new-group field and reload the groups of the selected topic; it
    never throws.  Both selections and the topic list are kept, and
    with an array as answer the group list is rendered anew. *)
Theorem create_group_accepted {parser : Manage.HtmlParser}
    (p : Manage.Page) (t : Z) (resp : JS.Response) (again : Manage.ListOutcome) :
  Manage.currentTopicId p = Some t ->
  JS.trim (Manage.new_group p) <> "" ->
  payload_ok resp ->
  let run := Manage.handleCreateGroup (JS.Responded resp) again p in
  JS.result run = JS.Done tt /\
  JS.events (JS.trace run) =
    [JS.EvFetch (create_group_request t (JS.trim (Manage.new_group p)));
     JS.EvFetch (groups_request t)] /\
  Manage.new_group (JS.final run) = "" /\
  Manage.new_topic (JS.final run) = Manage.new_topic p /\
  Manage.currentCategoryId (JS.final run) = Manage.currentCategoryId p /\
  Manage.currentTopicId (JS.final run) = Some t /\
  Manage.currentTopicName (JS.final run) = Manage.currentTopicName p /\
  Manage.topic_list (JS.final run) = Manage.topic_list p /\
  (forall items, again = Manage.ListItems items ->
     map Manage.rid (Manage.group_list (JS.final run)) = map Manage.ent_id items).
Proof.
  intros Hc Hname Hresp. cbv zeta.
  rewrite (handleCreateGroup_accepted p t resp again Hc Hname Hresp).
  set (p1 := Manage.set_inputs (Manage.new_category p) (Manage.new_topic p) "" p).
  pose proof (detached_never_throws
                (Manage.loadGroups t (Manage.currentTopicName p) again) p1) as R.
  destruct (detached_run
              (Manage.loadGroups t (Manage.currentTopicName p) again) p1) as [F T].
  destruct (JS.detached (Manage.loadGroups t (Manage.currentTopicName p) again) p1)
    as [s2 t2 r2].
  cbn [JS.final JS.trace JS.result] in *. subst s2 t2 r2.
  split; [reflexivity|].
  split; [cbn [JS.events map fst]; f_equal; apply loadGroups_events|].
  do 6 (split; [destruct again; reflexivity|]).
  intros items ->.
  rewrite loadGroups_items. apply rendered_rows_ids.
Qed.

Section Sample_create_group_accepted_sample.
#[local] Existing Instance sample_parser.

(** X23 on [sample_page_new_group]: "G2" is created in topic 10 and
    the server then lists groups 100 and 101. *)
Lemma create_group_accepted_sample :
  map Manage.rid
    (Manage.group_list
       (JS.final (Manage.handleCreateGroup (JS.Responded ok_response)
                    (Manage.ListItems [Manage.mkEntity 100 "G1"; Manage.mkEntity 101 "G2"])
                    sample_page_new_group))) =
  [100; 101].
Proof.
  destruct (create_group_accepted sample_page_new_group 10 ok_response
              (Manage.ListItems [Manage.mkEntity 100 "G1"; Manage.mkEntity 101 "G2"]))
    as (_ & _ & _ & _ & _ & _ & _ & _ & H).
  - reflexivity.
  - discriminate.
  - eexists. split; reflexivity.
  - exact (H _ eq_refl).
Defined.
End Sample_create_group_accepted_sample.

Section NameClickFacts.
Import JS Manage.
Context {parser : Manage.HtmlParser}.



End NameClickFacts.


Section Sample_name_click_after_rename_sample.
#[local] Existing Instance sample_parser.

End Sample_name_click_after_rename_sample.
